(** * sql.mit.edu database models: a shallow embedding of [database.py]

    The development follows the layout of the Python module: the five
    SQLAlchemy record classes with their constructors, the password
    encoding used by [User.set_password], the [formatify] escaping pass
    and the seven DDL elements with their compile hooks.

    Python 2 byte strings are [string] (lists of 8-bit [ascii]), integer
    columns are [Z], a column that has not been assigned yet ([None]) is
    an [option], and a function that can raise returns an [option] or a
    [Result]. *)

From Stdlib Require Import ZArith NArith Bool List String Ascii Lia.
From Stdlib Require Import DecimalString.
Import ListNotations.

Local Open Scope string_scope.
Local Open Scope Z_scope.

(* ===================================================================== *)
(** * Time: [datetime] values and the wall clock read by [dt.now()]       *)
(* ===================================================================== *)

Record datetime : Type := dt
  { year : Z; month : Z; day : Z;
    hour : Z; minute : Z; second : Z; microsecond : Z }.

(** [dt(1900, 1, 1, tzinfo=None)]: the fields left out default to zero. *)
Definition dt_1900_1_1 : datetime := dt 1900 1 1 0 0 0 0.

(** The wall clock is the only ambient state the constructors read.  A
    clock is the sequence of values that successive calls of [dt.now()]
    return, together with the number of calls made so far. *)
Record Clock : Type := mkClock
  { readings : nat -> datetime;
    elapsed : nat }.

(** Computations that may read the clock: explicit state passing. *)
Definition Timed (A : Type) : Type := Clock -> A * Clock.

Definition ret {A : Type} (a : A) : Timed A := fun k => (a, k).

Definition bind {A B : Type} (m : Timed A) (f : A -> Timed B) : Timed B :=
  fun k => let (a, k') := m k in f a k'.

Notation "x <- m ;; f" := (bind m (fun x => f))
  (at level 61, m at next level, right associativity).

(** [dt.now()] *)
Definition dt_now : Timed datetime :=
  fun k => (readings k (elapsed k), mkClock (readings k) (S (elapsed k))).

(* ===================================================================== *)
(** * Record classes                                                      *)
(* ===================================================================== *)

(** A relationship attribute ([self.user = user], [self.database =
    database]) holds a reference to another record; the reference is
    kept as the unique key of its target ([Username], [Name]).  Primary
    and foreign key columns are assigned by the backend when the record
    is flushed and are [None] in a record that was just constructed. *)

Module Database.

Record t : Type := mk
  { DatabaseId : option Z;
    Name : string;
    nBytes : Z;
    dLastCheck : datetime;
    dCreated : datetime;
    bEnabled : Z }.

Definition __init__ (Name : string) : Timed t :=
  now <- dt_now ;;
  ret {| DatabaseId := None;
         Name := Name;
         nBytes := 0;
         dLastCheck := dt_1900_1_1;
         dCreated := now;
         bEnabled := 1 |}.

End Database.

(* --------------------------------------------------------------------- *)
(** ** Password encoding: [base64.b64encode]                              *)
(* --------------------------------------------------------------------- *)

(** [base64.b64encode] belongs to the Python standard library.  It is
    written out here as the usual three-bytes-to-four-characters coder
    over the standard alphabet, with [=] padding for a last group of one
    or two bytes.  Bytes and six-bit groups are numbers in [N]. *)

Definition b64_alphabet : string :=
  "ABCDEFGHIJKLMNOPQRSTUVWXYZabcdefghijklmnopqrstuvwxyz0123456789+/".

Definition b64_pad : ascii := "="%char.

Definition b64_char (n : N) : ascii :=
  match String.get (N.to_nat n) b64_alphabet with
  | Some c => c
  | None => b64_pad
  end.

Fixpoint index_from (i : N) (c : ascii) (s : string) : option N :=
  match s with
  | EmptyString => None
  | String d s' => if Ascii.eqb c d then Some i else index_from (N.succ i) c s'
  end.

Definition b64_index (c : ascii) : option N := index_from 0%N c b64_alphabet.

Definition sextet1 (a : N) : N := N.shiftr a 2.
Definition sextet2 (a b : N) : N :=
  N.lor (N.shiftl (N.land a 3) 4) (N.shiftr b 4).
Definition sextet3 (b c : N) : N :=
  N.lor (N.shiftl (N.land b 15) 2) (N.shiftr c 6).
Definition sextet4 (c : N) : N := N.land c 63.

Fixpoint b64encode (s : string) : string :=
  match s with
  | EmptyString => EmptyString
  | String a EmptyString =>
      let a := N_of_ascii a in
      String (b64_char (sextet1 a))
        (String (b64_char (sextet2 a 0))
           (String b64_pad (String b64_pad EmptyString)))
  | String a (String b EmptyString) =>
      let a := N_of_ascii a in
      let b := N_of_ascii b in
      String (b64_char (sextet1 a))
        (String (b64_char (sextet2 a b))
           (String (b64_char (sextet3 b 0))
              (String b64_pad EmptyString)))
  | String a (String b (String c rest)) =>
      let a := N_of_ascii a in
      let b := N_of_ascii b in
      let c := N_of_ascii c in
      String (b64_char (sextet1 a))
        (String (b64_char (sextet2 a b))
           (String (b64_char (sextet3 b c))
              (String (b64_char (sextet4 c)) (b64encode rest))))
  end.

(** The decoder that reads the column back: the inverse coder, four
    characters to three bytes, which accepts padding in the last group
    only and rejects every other text ([None]). *)

Definition octet1 (w x : N) : ascii :=
  ascii_of_N (N.lor (N.shiftl w 2) (N.shiftr x 4)).
Definition octet2 (x y : N) : ascii :=
  ascii_of_N (N.lor (N.shiftl (N.land x 15) 4) (N.shiftr y 2)).
Definition octet3 (y z : N) : ascii :=
  ascii_of_N (N.lor (N.shiftl (N.land y 3) 6) z).

Fixpoint b64decode (s : string) : option string :=
  match s with
  | EmptyString => Some EmptyString
  | String w (String x (String y (String z rest))) =>
      match b64_index w, b64_index x with
      | Some w, Some x =>
          if Ascii.eqb y b64_pad then
            if Ascii.eqb z b64_pad then
              match rest with
              | EmptyString => Some (String (octet1 w x) EmptyString)
              | _ => None
              end
            else None
          else
            match b64_index y with
            | Some y =>
                if Ascii.eqb z b64_pad then
                  match rest with
                  | EmptyString =>
                      Some (String (octet1 w x)
                              (String (octet2 x y) EmptyString))
                  | _ => None
                  end
                else
                  match b64_index z, b64decode rest with
                  | Some z, Some tail =>
                      Some (String (octet1 w x)
                              (String (octet2 x y)
                                 (String (octet3 y z) tail)))
                  | _, _ => None
                  end
            | None => None
            end
      | _, _ => None
      end
  | _ => None
  end.

Module User.

Record t : Type := mk
  { UserId : option Z;
    Username : string;
    Password : option string;
    Name : string;
    Email : string;
    UL : Z;
    dCreated : datetime;
    dSignup : datetime;
    bEnabled : Z }.

Definition set_password (self : t) (Password : string) : t :=
  {| UserId := UserId self;
     Username := Username self;
     Password := Some (b64encode Password);
     Name := Name self;
     Email := Email self;
     UL := UL self;
     dCreated := dCreated self;
     dSignup := dSignup self;
     bEnabled := bEnabled self |}.

(** The attributes are assigned in the order of the source: the two
    timestamps come from two successive readings of the clock, and the
    [Password] column is unset until [set_password] runs. *)
Definition __init__ (Username Password Name Email : string) : Timed t :=
  created <- dt_now ;;
  signup <- dt_now ;;
  ret (set_password
         {| UserId := None;
            Username := Username;
            Password := None;
            Name := Name;
            Email := Email;
            UL := 1;
            dCreated := created;
            dSignup := signup;
            bEnabled := 1 |}
         Password).

End User.

Module DBQuota.

Record t : Type := mk
  { DatabaseId : option Z;
    database : string;
    nBytesSoft : Z;
    nBytesHard : Z;
    dCreated : datetime }.

Definition __init__ (database : Database.t) : Timed t :=
  now <- dt_now ;;
  ret {| DatabaseId := None;
         database := Database.Name database;
         nBytesSoft := 0;
         nBytesHard := 0;
         dCreated := now |}.

End DBQuota.

Module DBOwner.

Record t : Type := mk
  { DatabaseId : option Z;
    UserId : option Z;
    user : string;
    database : string;
    GroupId : Z }.

Definition __init__ (user : User.t) (database : Database.t) : t :=
  {| DatabaseId := None;
     UserId := None;
     user := User.Username user;
     database := Database.Name database;
     GroupId := 0 |}.

End DBOwner.

Module UserQuota.

Record t : Type := mk
  { UserId : option Z;
    user : string;
    nDatabasesHard : Z;
    nBytesSoft : Z;
    nBytesHard : Z;
    dCreated : datetime }.

Definition __init__ (user : User.t) : Timed t :=
  now <- dt_now ;;
  ret {| UserId := None;
         user := User.Username user;
         nDatabasesHard := 20;
         nBytesSoft := 90 * 1024 * 1024;
         nBytesHard := 100 * 1024 * 1024;
         dCreated := now |}.

End UserQuota.

Module UserStat.

Record t : Type := mk
  { UserId : option Z;
    user : string;
    nDatabases : Z;
    nBytes : Z;
    dLastCheck : datetime }.

Definition __init__ (user : User.t) : t :=
  {| UserId := None;
     user := User.Username user;
     nDatabases := 0;
     nBytes := 0;
     dLastCheck := dt_1900_1_1 |}.

End UserStat.

(* ===================================================================== *)
(** * DDL elements and their compile hooks                                *)
(* ===================================================================== *)

(** [s.replace(old, new)] for a one-character [old]. *)
Fixpoint replace_char (old : ascii) (new : string) (s : string) : string :=
  match s with
  | EmptyString => EmptyString
  | String c rest =>
      if Ascii.eqb c old
      then new ++ replace_char old new rest
      else String c (replace_char old new rest)
  end.

Definition formatify (instr : string) : string :=
  replace_char "%" "%%" instr.

(** The string formatting operator [fmt % args] for a tuple of strings.
    The two conversions that occur in this module are covered: [%s]
    takes the next argument and [%%] is a literal percent sign.  A
    conversion without an argument, arguments left over, a [%] at the
    end of the format and every other conversion raise ([None]). *)
Fixpoint pyformat (fmt : string) (args : list string) : option string :=
  match fmt with
  | EmptyString =>
      match args with
      | [] => Some EmptyString
      | _ :: _ => None
      end
  | String c rest =>
      if Ascii.eqb c "%" then
        match rest with
        | EmptyString => None
        | String d rest' =>
            if Ascii.eqb d "s" then
              match args with
              | [] => None
              | a :: args' => option_map (append a) (pyformat rest' args')
              end
            else if Ascii.eqb d "%" then
              option_map (String "%") (pyformat rest' args)
            else None
        end
      else option_map (String c) (pyformat rest args)
  end.

(** The [compiler] argument of a compile hook.  The two methods that the
    hooks call belong to SQLAlchemy and its dialect, not to this module:
    [compiler.preparer.quote_identifier] and
    [compiler.sql_compiler.render_literal_value(_, sqlalchemy.String)]. *)
Record Compiler : Type := mkCompiler
  { quote_identifier : string -> string;
    render_literal_value : string -> string }.

Module CreateDatabase.

Record t : Type := mk { name : string }.

Definition __init__ (name : string) : t := {| name := name |}.

End CreateDatabase.

Definition visit_create_database
    (element : CreateDatabase.t) (compiler : Compiler) : option string :=
  option_map formatify
    (pyformat "CREATE DATABASE %s"
       [quote_identifier compiler (CreateDatabase.name element)]).

Module DropDatabase.

Record t : Type := mk { name : string; ignore : bool }.

(** [ignore] is a keyword argument with default [False]. *)
Definition __init__ (name : string) (ignore : option bool) : t :=
  {| name := name;
     ignore := match ignore with Some b => b | None => false end |}.

End DropDatabase.

Definition visit_drop_database
    (element : DropDatabase.t) (compiler : Compiler) : option string :=
  let if_exists := if DropDatabase.ignore element then "IF EXISTS" else "" in
  option_map formatify
    (pyformat "DROP DATABASE %s %s"
       [if_exists; quote_identifier compiler (DropDatabase.name element)]).

Module CreateUser.

Record t : Type := mk { name : string; host : string; passwd : string }.

Definition __init__ (name host passwd : string) : t :=
  {| name := name; host := host; passwd := passwd |}.

End CreateUser.

Definition visit_create_user
    (element : CreateUser.t) (compiler : Compiler) : option string :=
  option_map formatify
    (pyformat "CREATE USER %s@%s IDENTIFIED BY %s"
       (map (render_literal_value compiler)
          [CreateUser.name element; CreateUser.host element;
           CreateUser.passwd element])).

Module DropUser.

Record t : Type := mk { name : string; host : string }.

Definition __init__ (name host : string) : t :=
  {| name := name; host := host |}.

End DropUser.

Definition visit_drop_user
    (element : DropUser.t) (compiler : Compiler) : option string :=
  option_map formatify
    (pyformat "DROP USER %s@%s"
       (map (render_literal_value compiler)
          [DropUser.name element; DropUser.host element])).

Module ChangePassword.

Record t : Type := mk { name : string; host : string; passwd : string }.

Definition __init__ (name host passwd : string) : t :=
  {| name := name; host := host; passwd := passwd |}.

End ChangePassword.

Definition visit_change_password
    (element : ChangePassword.t) (compiler : Compiler) : option string :=
  option_map formatify
    (pyformat "SET PASSWORD FOR %s@%s = PASSWORD(%s)"
       (map (render_literal_value compiler)
          [ChangePassword.name element; ChangePassword.host element;
           ChangePassword.passwd element])).

Module Grant.

Record t : Type := mk { db : string; user : string; host : string }.

Definition __init__ (db user host : string) : t :=
  {| db := db; user := user; host := host |}.

End Grant.

Definition visit_grant
    (element : Grant.t) (compiler : Compiler) : option string :=
  option_map formatify
    (pyformat "GRANT ALL ON %s.* TO %s@%s"
       [quote_identifier compiler (Grant.db element);
        render_literal_value compiler (Grant.user element);
        render_literal_value compiler (Grant.host element)]).

Module Revoke.

Record t : Type := mk { db : string; user : string; host : string }.

Definition __init__ (db user host : string) : t :=
  {| db := db; user := user; host := host |}.

End Revoke.

Definition visit_revoke
    (element : Revoke.t) (compiler : Compiler) : option string :=
  option_map formatify
    (pyformat "REVOKE ALL ON %s.* FROM %s@%s"
       [quote_identifier compiler (Revoke.db element);
        render_literal_value compiler (Revoke.user element);
        render_literal_value compiler (Revoke.host element)]).

(** The registry filled by the [@compiles] decorators: which hook renders
    which element class. *)
Inductive DDLElement : Type :=
  | ECreateDatabase (e : CreateDatabase.t)
  | EDropDatabase (e : DropDatabase.t)
  | ECreateUser (e : CreateUser.t)
  | EDropUser (e : DropUser.t)
  | EChangePassword (e : ChangePassword.t)
  | EGrant (e : Grant.t)
  | ERevoke (e : Revoke.t).

Definition compile (element : DDLElement) (compiler : Compiler)
  : option string :=
  match element with
  | ECreateDatabase e => visit_create_database e compiler
  | EDropDatabase e => visit_drop_database e compiler
  | ECreateUser e => visit_create_user e compiler
  | EDropUser e => visit_drop_user e compiler
  | EChangePassword e => visit_change_password e compiler
  | EGrant e => visit_grant e compiler
  | ERevoke e => visit_revoke e compiler
  end.

(** The statement each element stands for, before the escaping pass:
    the template of the hook with its slots filled in. *)
Definition statement_text (element : DDLElement) (compiler : Compiler)
  : string :=
  let ident := quote_identifier compiler in
  let lit := render_literal_value compiler in
  match element with
  | ECreateDatabase e => "CREATE DATABASE " ++ ident (CreateDatabase.name e)
  | EDropDatabase e =>
      "DROP DATABASE "
        ++ (if DropDatabase.ignore e then "IF EXISTS" else "")
        ++ " " ++ ident (DropDatabase.name e)
  | ECreateUser e =>
      "CREATE USER " ++ lit (CreateUser.name e) ++ "@"
        ++ lit (CreateUser.host e)
        ++ " IDENTIFIED BY " ++ lit (CreateUser.passwd e)
  | EDropUser e =>
      "DROP USER " ++ lit (DropUser.name e) ++ "@" ++ lit (DropUser.host e)
  | EChangePassword e =>
      "SET PASSWORD FOR " ++ lit (ChangePassword.name e) ++ "@"
        ++ lit (ChangePassword.host e)
        ++ " = PASSWORD(" ++ lit (ChangePassword.passwd e) ++ ")"
  | EGrant e =>
      "GRANT ALL ON " ++ ident (Grant.db e) ++ ".* TO "
        ++ lit (Grant.user e) ++ "@" ++ lit (Grant.host e)
  | ERevoke e =>
      "REVOKE ALL ON " ++ ident (Revoke.db e) ++ ".* FROM "
        ++ lit (Revoke.user e) ++ "@" ++ lit (Revoke.host e)
  end.

(** ** What the executor sees *)

(** A text is free of unpaired percent signs when, read from the left,
    every [%] is immediately followed by a second [%] that belongs to
    it. *)
Fixpoint percent_escaped (s : string) : bool :=
  match s with
  | EmptyString => true
  | String c rest =>
      if Ascii.eqb c "%" then
        match rest with
        | EmptyString => false
        | String d rest' => Ascii.eqb d "%" && percent_escaped rest'
        end
      else percent_escaped rest
  end.

(** The quoting structure of a statement, as the backend's lexer reads
    it: a quote opens a literal, a doubled quote or a backslash escape
    inside the literal stands for a character, a single quote closes
    the literal. *)
Inductive qstate : Type :=
  | Outside    (* not in a literal *)
  | Inside     (* in a literal *)
  | Escaped    (* in a literal, after a backslash *)
  | Closing.   (* in a literal, after a quote: closed unless it is doubled *)

Definition quote : ascii := "'"%char.
Definition backslash : ascii := "\"%char.

Definition qstep (st : qstate) (c : ascii) : qstate :=
  match st with
  | Outside => if Ascii.eqb c quote then Inside else Outside
  | Inside =>
      if Ascii.eqb c quote then Closing
      else if Ascii.eqb c backslash then Escaped
      else Inside
  | Escaped => Inside
  | Closing => if Ascii.eqb c quote then Inside else Outside
  end.

Fixpoint quote_scan (st : qstate) (s : string) : qstate :=
  match s with
  | EmptyString => st
  | String c rest => quote_scan (qstep st c) rest
  end.

(** Every quote of the text is guarded: the text does not end inside a
    literal. *)
Definition quotes_guarded (s : string) : bool :=
  match quote_scan Outside s with
  | Outside | Closing => true
  | Inside | Escaped => false
  end.

(** [closes_at_end st s]: read from state [st] inside a literal, the
    text [s] stays inside that literal up to its last character, which
    closes it. *)
Fixpoint closes_at_end (st : qstate) (s : string) : bool :=
  match s with
  | EmptyString => match st with Closing => true | _ => false end
  | String c rest =>
      match qstep st c with
      | Outside => false
      | st' => closes_at_end st' rest
      end
  end.

(** The text is one string literal: an opening quote, a body in which
    every quote is escaped, a closing quote. *)
Definition single_literal (s : string) : bool :=
  match s with
  | EmptyString => false
  | String c body => Ascii.eqb c quote && closes_at_end Inside body
  end.

(** A compiler with the quoting rules of the dialect that the engine of
    this module selects (MySQL through MySQLdb): an identifier goes
    between backquotes with every backquote in it doubled and then every
    percent sign doubled; a string literal goes between single quotes
    with every single quote in it doubled, and then every backslash of
    the result is doubled. *)
Definition mysql_quote_identifier (value : string) : string :=
  "`" ++ replace_char "%" "%%" (replace_char "`" "``" value) ++ "`".

Definition mysql_render_literal_value (value : string) : string :=
  replace_char "\" "\\" ("'" ++ replace_char "'" "''" value ++ "'").

Definition mysql_compiler : Compiler :=
  {| quote_identifier := mysql_quote_identifier;
     render_literal_value := mysql_render_literal_value |}.

(* ===================================================================== *)
(** * Executing statements against a session                              *)
(* ===================================================================== *)

(** The failures an operation can report (the error taxonomy of the
    specification). *)
Inductive Error : Type :=
  | DuplicateKey
  | DuplicateUsername
  | DuplicateDatabaseName
  | QuotaExceeded
  | NotFound
  | BackendExecutionFailed.

Inductive Result (A : Type) : Type :=
  | Ok (a : A)
  | Err (e : Error).

Arguments Ok {A} a.
Arguments Err {A} e.

(** A user together with the two rows that hang off it through the
    [quota] and [stat] relationships of the [User] class. *)
Record Account : Type := mkAccount
  { user : User.t;
    quota : UserQuota.t;
    stat : UserStat.t }.

(** The rows of the five tables. *)
Record Store : Type := mkStore
  { accounts : list Account;
    databases : list Database.t;
    owners : list DBOwner.t;
    dbquotas : list DBQuota.t }.

(** Everything an operation can observe or change: the clock, the
    record store, and the texts handed to the backend so far, oldest
    first. *)
Record World : Type := mkWorld
  { clock : Clock;
    store : Store;
    issued : list string }.

(** An operation threads the world and may fail.  A failure keeps the
    world reached so far: a statement that was handed to the backend
    stays issued. *)
Definition Op (A : Type) : Type := World -> Result A * World.

Definition op_ret {A : Type} (a : A) : Op A := fun w => (Ok a, w).

Definition op_bind {A B : Type} (m : Op A) (f : A -> Op B) : Op B :=
  fun w =>
    match m w with
    | (Ok a, w') => f a w'
    | (Err e, w') => (Err e, w')
    end.

Notation "x <~ m ;; f" := (op_bind m (fun x => f))
  (at level 61, m at next level, right associativity).

Definition fail {A : Type} (e : Error) : Op A := fun w => (Err e, w).

Definition timed {A : Type} (m : Timed A) : Op A :=
  fun w => let (a, k) := m (clock w) in (Ok a, mkWorld k (store w) (issued w)).

Definition get_store : Op Store := fun w => (Ok (store w), w).

Definition put_store (s : Store) : Op unit :=
  fun w => (Ok tt, mkWorld (clock w) s (issued w)).

Section Session.

(** The dialect's compiler and the backend, which accepts or rejects a
    statement text. *)
Variable compiler : Compiler.
Variable backend : string -> bool.

(** Executing a DDL element: the element is compiled by its hook and the
    text is handed to the backend.  A hook that raises hands over
    nothing. *)
Definition execute (element : DDLElement) : Op unit :=
  fun w =>
    match compile element compiler with
    | None => (Err BackendExecutionFailed, w)
    | Some text =>
        let w' := mkWorld (clock w) (store w) (issued w ++ [text]) in
        if backend text then (Ok tt, w') else (Err BackendExecutionFailed, w')
    end.

(* ===================================================================== *)
(** * Quota policy and provisioning                                       *)
(* ===================================================================== *)

(** Modelled from the spec: the Quota Policy function
    [canCreateDatabase(user)], which is not part of [database.py]:
    true iff [stat.nDatabases < quota.nDatabasesHard]. *)
Definition canCreateDatabase (u : Account) : bool :=
  UserStat.nDatabases (stat u) <? UserQuota.nDatabasesHard (quota u).

(** Modelled from the spec: fetch-by-unique-field of the Record Store,
    for [Username]. *)
Fixpoint find_account (username : string) (l : list Account)
  : option Account :=
  match l with
  | [] => None
  | a :: l' =>
      if String.eqb (User.Username (user a)) username then Some a
      else find_account username l'
  end.

(** Modelled from the spec: fetch-by-unique-field of the Record Store,
    for [Database.Name], as a test. *)
Definition database_exists (name : string) (l : list Database.t) : bool :=
  existsb (fun d => String.eqb (Database.Name d) name) l.

(** Modelled from the spec: the host of the backend accounts, which the
    Provisioning Engine operations do not take as an argument. *)
Variable host : string.

(** Modelled from the spec: the Provisioning Engine operation
    [CreateUser(username, password, name, email)]: fails with
    [DuplicateUsername] if the name is taken; issues [CREATE USER]; then
    creates the [User] row with its default [UserQuota] and [UserStat]. *)
Definition CreateUser (username password name email : string) : Op unit :=
  s <~ get_store ;;
  match find_account username (accounts s) with
  | Some _ => fail DuplicateUsername
  | None =>
      _ <~ execute (ECreateUser (CreateUser.__init__ username host password)) ;;
      u <~ timed (User.__init__ username password name email) ;;
      q <~ timed (UserQuota.__init__ u) ;;
      let st := UserStat.__init__ u in
      put_store (mkStore (accounts s ++ [mkAccount u q st])
                   (databases s) (owners s) (dbquotas s))
  end.

(** Modelled from the spec: the number of databases a user owns, the
    value cached in [stat.nDatabases]. *)
Definition count_owned (username : string) (l : list DBOwner.t) : Z :=
  Z.of_nat
    (List.length (filter (fun o => String.eqb (DBOwner.user o) username) l)).

(** Modelled from the spec: the usage accounting for one user: it
    recomputes the cached [stat.nDatabases] from the [DBOwner] links and
    leaves every other row alone. *)
Definition recount_account (s : Store) (username : string) (a : Account)
  : Account :=
  if String.eqb (User.Username (user a)) username then
    mkAccount (user a) (quota a)
      (UserStat.mk (UserStat.UserId (stat a)) (UserStat.user (stat a))
         (count_owned username (owners s))
         (UserStat.nBytes (stat a)) (UserStat.dLastCheck (stat a)))
  else a.

(** Modelled from the spec: one run of the usage accounting for one
    user, on the whole world. *)
Definition usage_accounting (username : string) (w : World) : World :=
  let s := store w in
  mkWorld (clock w)
    (mkStore (map (recount_account s username) (accounts s))
       (databases s) (owners s) (dbquotas s))
    (issued w).

Definition account_usage (username : string) : Op unit :=
  fun w => (Ok tt, usage_accounting username w).

(** Modelled from the spec: the Provisioning Engine operation
    [CreateDatabase(name, owningUser)]: checks [canCreateDatabase] and
    fails with [QuotaExceeded] if it is false; fails with
    [DuplicateDatabaseName] if the name is taken; issues [CREATE
    DATABASE] and [GRANT ALL]; creates the [Database] row, its [DBOwner]
    link and its default [DBQuota]; and has the owner's cached
    [stat.nDatabases] recounted, so that the count the next quota check
    reads includes the database, as the testable property of the quota
    requires. *)
Definition CreateDatabase (name owningUser : string) : Op unit :=
  s <~ get_store ;;
  match find_account owningUser (accounts s) with
  | None => fail NotFound
  | Some u =>
      if negb (canCreateDatabase u) then fail QuotaExceeded
      else if database_exists name (databases s)
      then fail DuplicateDatabaseName
      else
        _ <~ execute (ECreateDatabase (CreateDatabase.__init__ name)) ;;
        _ <~ execute (EGrant (Grant.__init__ name owningUser host)) ;;
        d <~ timed (Database.__init__ name) ;;
        let o := DBOwner.__init__ (user u) d in
        q <~ timed (DBQuota.__init__ d) ;;
        _ <~ put_store (mkStore (accounts s) (databases s ++ [d])
                          (owners s ++ [o]) (dbquotas s ++ [q])) ;;
        account_usage owningUser
  end.

(** Modelled from the spec: the testable property's scenario,
    [CreateDatabase] called once per name for the same user; the outcome
    of every call is kept with the world it left. *)
Fixpoint create_each (names : list string) (owningUser : string) (w : World)
  : list (Result unit * World) :=
  match names with
  | [] => []
  | n :: names' =>
      let r := CreateDatabase n owningUser w in
      r :: create_each names' owningUser (snd r)
  end.

End Session.

(** The world before anything was provisioned. *)
Definition empty_world (k : Clock) : World :=
  mkWorld k (mkStore [] [] [] []) [].

(** A clock for examples: reading [n] is [n] microseconds into
    2011-01-01. *)
Definition example_clock : Clock :=
  mkClock (fun n => dt 2011 1 1 0 0 0 (Z.of_nat n)) 0.

(** ** Worked example: one user with the default quota *)

(** The world after [CreateUser] for alice, on a MySQL dialect and a
    backend that accepts every statement. *)
Definition accepting_backend : string -> bool := fun _ => true.

Definition alice_world : World :=
  snd (CreateUser mysql_compiler accepting_backend "localhost"
         "alice" "secret" "Alice" "alice@mit.edu" (empty_world example_clock)).

Definition alice_account : Account :=
  let (u, k) := User.__init__ "alice" "secret" "Alice" "alice@mit.edu"
                  example_clock in
  mkAccount u (fst (UserQuota.__init__ u k)) (UserStat.__init__ u).

(** Twenty-one distinct database names. *)
Definition example_names : list string :=
  ["db01"; "db02"; "db03"; "db04"; "db05"; "db06"; "db07";
   "db08"; "db09"; "db10"; "db11"; "db12"; "db13"; "db14";
   "db15"; "db16"; "db17"; "db18"; "db19"; "db20"; "db21"].

(** ** Notions used in the proofs *)

(** Facts about bytes are checked on all 256 of them. *)
Definition all_bytes : list N := map N.of_nat (seq 0 256).

(** A six-bit group. *)
Definition is_sextet (n : N) : bool := N.ltb n 64.

(** The state of one user's quota between two calls: [r] databases are
    left before the ceiling of [q], and the cached count is up to
    date. *)
Definition quota_state (owner : string) (q : UserQuota.t) (r : nat)
    (w : World) : Prop :=
  exists u : Account,
    find_account owner (accounts (store w)) = Some u
    /\ quota u = q
    /\ UserStat.nDatabases (stat u) = UserQuota.nDatabasesHard q - Z.of_nat r
    /\ count_owned owner (owners (store w))
       = UserQuota.nDatabasesHard q - Z.of_nat r
    /\ Z.of_nat r <= UserQuota.nDatabasesHard q.

(* ===================================================================== *)
(** * [__repr__]                                                          *)
(* ===================================================================== *)

(** The values that the [__repr__] methods format: an integer column, a
    string column, or [None] for a column that is not assigned yet. *)
Inductive PyValue : Type :=
  | PyInt (z : Z)
  | PyStr (s : string)
  | PyNone.

(** [str(z)] for an integer: its decimal digits, with a sign when it is
    negative. *)
Definition decimal (z : Z) : string := NilZero.string_of_int (Z.to_int z).

Definition column (v : option Z) : PyValue :=
  match v with
  | Some z => PyInt z
  | None => PyNone
  end.

(** [fmt % args] for a tuple of such values.  [%s] takes [str()] of the
    next argument; [%d] takes the next argument if it is an integer and
    raises for a string or [None]; [%%] is a percent sign.  The other
    failures are as for [pyformat]. *)
Fixpoint pyformat_values (fmt : string) (args : list PyValue)
  : option string :=
  match fmt with
  | EmptyString =>
      match args with
      | [] => Some EmptyString
      | _ :: _ => None
      end
  | String c rest =>
      if Ascii.eqb c "%" then
        match rest with
        | EmptyString => None
        | String d rest' =>
            if Ascii.eqb d "s" then
              match args with
              | [] => None
              | PyInt z :: args' =>
                  option_map (append (decimal z)) (pyformat_values rest' args')
              | PyStr s :: args' =>
                  option_map (append s) (pyformat_values rest' args')
              | PyNone :: args' =>
                  option_map (append "None") (pyformat_values rest' args')
              end
            else if Ascii.eqb d "d" then
              match args with
              | PyInt z :: args' =>
                  option_map (append (decimal z)) (pyformat_values rest' args')
              | _ => None
              end
            else if Ascii.eqb d "%" then
              option_map (String "%") (pyformat_values rest' args)
            else None
        end
      else option_map (String c) (pyformat_values rest args)
  end.

Definition text_column (v : option string) : PyValue :=
  match v with
  | Some s => PyStr s
  | None => PyNone
  end.

(** Each [__repr__] as a function of the attribute values it formats.
    Every column is nullable: an attribute is [None] until it is
    assigned, and in a row loaded with NULL in that column. *)
Definition DBQuota_repr (DatabaseId nBytesSoft nBytesHard : option Z)
  : option string :=
  pyformat_values "<DBQuota('%d', '%d', '%d')>"
    [column DatabaseId; column nBytesSoft; column nBytesHard].

Definition DBOwner_repr (DatabaseId UserId GroupId : option Z)
  : option string :=
  pyformat_values "<DBOwner('%d', '%d', '%d')>"
    [column DatabaseId; column UserId; column GroupId].

Definition Database_repr (DatabaseId : option Z) (Name : option string)
    (nBytes : option Z) : option string :=
  pyformat_values "<Database('%d', '%s', '%d')>"
    [column DatabaseId; text_column Name; column nBytes].

Definition UserQuota_repr (UserId nDatabasesHard nBytesSoft nBytesHard
                           : option Z) : option string :=
  pyformat_values "<UserQuota('%d', '%d', '%d', '%d')>"
    [column UserId; column nDatabasesHard; column nBytesSoft;
     column nBytesHard].

Definition UserStat_repr (UserId nDatabases nBytes : option Z)
  : option string :=
  pyformat_values "<UserStat('%d', '%d', '%d')>"
    [column UserId; column nDatabases; column nBytes].

Definition User_repr (UserId : option Z) (Username : option string)
  : option string :=
  pyformat_values "<User('%d','%s')>" [column UserId; text_column Username].

(** [__repr__] of a record of this development, in which the columns
    that the constructors assign hold their values. *)
Definition DBQuota__repr__ (self : DBQuota.t) : option string :=
  DBQuota_repr (DBQuota.DatabaseId self) (Some (DBQuota.nBytesSoft self))
    (Some (DBQuota.nBytesHard self)).

Definition DBOwner__repr__ (self : DBOwner.t) : option string :=
  DBOwner_repr (DBOwner.DatabaseId self) (DBOwner.UserId self)
    (Some (DBOwner.GroupId self)).

Definition Database__repr__ (self : Database.t) : option string :=
  Database_repr (Database.DatabaseId self) (Some (Database.Name self))
    (Some (Database.nBytes self)).

Definition UserQuota__repr__ (self : UserQuota.t) : option string :=
  UserQuota_repr (UserQuota.UserId self) (Some (UserQuota.nDatabasesHard self))
    (Some (UserQuota.nBytesSoft self)) (Some (UserQuota.nBytesHard self)).

Definition UserStat__repr__ (self : UserStat.t) : option string :=
  UserStat_repr (UserStat.UserId self) (Some (UserStat.nDatabases self))
    (Some (UserStat.nBytes self)).

Definition User__repr__ (self : User.t) : option string :=
  User_repr (User.UserId self) (Some (User.Username self)).

(** ** Notions used to state further properties *)

(** How often a character occurs in a text. *)
Fixpoint count_char (c : ascii) (s : string) : nat :=
  match s with
  | EmptyString => 0%nat
  | String d rest =>
      if Ascii.eqb d c then S (count_char c rest) else count_char c rest
  end.

Fixpoint string_forallb (p : ascii -> bool) (s : string) : bool :=
  match s with
  | EmptyString => true
  | String c rest => p c && string_forallb p rest
  end.

(** A character of base64 text: one of the alphabet, or the padding. *)
Definition b64_text_char (c : ascii) : bool :=
  match b64_index c with
  | Some _ => true
  | None => Ascii.eqb c b64_pad
  end.

(** The width of the [Password] column, [VARCHAR(200)]. *)
Definition Password_width : nat := 200.

(** The lexer of the backend with its two kinds of quoted token: string
    literals between single quotes, as in [qstate], and identifiers
    between backquotes, in which a doubled backquote stands for a
    backquote and every other character, a single quote and a backslash
    among them, stands for itself. *)
Inductive lexstate : Type :=
  | LOutside       (* not in a token *)
  | LInside        (* in a literal *)
  | LEscaped       (* in a literal, after a backslash *)
  | LClosing       (* in a literal, after a quote *)
  | LIdent         (* in an identifier *)
  | LIdentClosing. (* in an identifier, after a backquote *)

Definition backquote : ascii := "`"%char.

Definition lex_step (st : lexstate) (c : ascii) : lexstate :=
  match st with
  | LOutside | LClosing | LIdentClosing =>
      if Ascii.eqb c quote then LInside
      else if Ascii.eqb c backquote then LIdent
      else LOutside
  | LInside =>
      if Ascii.eqb c quote then LClosing
      else if Ascii.eqb c backslash then LEscaped
      else LInside
  | LEscaped => LInside
  | LIdent => if Ascii.eqb c backquote then LIdentClosing else LIdent
  end.

Fixpoint lex_scan (st : lexstate) (s : string) : lexstate :=
  match s with
  | EmptyString => st
  | String c rest => lex_scan (lex_step st c) rest
  end.

(** The state of this lexer that stands for a state of the lexer of
    literals; inside a literal the two agree. *)
Definition lex_of (st : qstate) : lexstate :=
  match st with
  | Outside => LOutside
  | Inside => LInside
  | Escaped => LEscaped
  | Closing => LClosing
  end.

(** The text does not end inside a literal or an identifier. *)
Definition tokens_closed (s : string) : bool :=
  match lex_scan LOutside s with
  | LOutside | LClosing | LIdentClosing => true
  | LInside | LEscaped | LIdent => false
  end.

(** [identifier_body closing s]: read inside an identifier ([closing]
    after a backquote), the text [s] stays inside that identifier up to
    its last character, which closes it. *)
Fixpoint identifier_body (closing : bool) (s : string) : bool :=
  match s with
  | EmptyString => closing
  | String c rest =>
      if closing then Ascii.eqb c backquote && identifier_body false rest
      else identifier_body (Ascii.eqb c backquote) rest
  end.

(** The text is one quoted identifier: an opening backquote, a body in
    which every backquote is doubled, a closing backquote. *)
Definition single_identifier (s : string) : bool :=
  match s with
  | EmptyString => false
  | String c body => Ascii.eqb c backquote && identifier_body false body
  end.

(* ===================================================================== *)
(** * Properties                                                          *)
(* ===================================================================== *)

(** ** Record defaults *)

(** C4: every newly created UserQuota has nDatabasesHard = 20,
    nBytesSoft = 90*1024*1024 and nBytesHard = 100*1024*1024, and every
    newly created DBQuota has nBytesSoft = 0 and nBytesHard = 0, whoever
    the user, whatever the database and whatever the clock shows. *)
Theorem quota_defaults :
  forall (u : User.t) (d : Database.t) (k : Clock),
    UserQuota.nDatabasesHard (fst (UserQuota.__init__ u k)) = 20
    /\ UserQuota.nBytesSoft (fst (UserQuota.__init__ u k)) = 90 * 1024 * 1024
    /\ UserQuota.nBytesHard (fst (UserQuota.__init__ u k)) = 100 * 1024 * 1024
    /\ DBQuota.nBytesSoft (fst (DBQuota.__init__ d k)) = 0
    /\ DBQuota.nBytesHard (fst (DBQuota.__init__ d k)) = 0.
Proof.
  intros u d k. repeat split.
Qed.

(** C5: for every name, a newly created Database record has nBytes = 0,
    dLastCheck equal to the never-checked sentinel 1900-01-01 00:00:00
    and enabled flag 1 (it keeps the name and is stamped with the
    reading of the clock); the DBOwner link created for it refers to the
    user and the database it was given and has GroupId = 0. *)
Theorem database_defaults :
  forall (name : string) (u : User.t) (k : Clock),
    Database.Name (fst (Database.__init__ name k)) = name
    /\ Database.nBytes (fst (Database.__init__ name k)) = 0
    /\ Database.dLastCheck (fst (Database.__init__ name k)) = dt 1900 1 1 0 0 0 0
    /\ Database.bEnabled (fst (Database.__init__ name k)) = 1
    /\ Database.dCreated (fst (Database.__init__ name k))
       = readings k (elapsed k)
    /\ DBOwner.GroupId (DBOwner.__init__ u (fst (Database.__init__ name k))) = 0
    /\ DBOwner.database (DBOwner.__init__ u (fst (Database.__init__ name k)))
       = name
    /\ DBOwner.user (DBOwner.__init__ u (fst (Database.__init__ name k)))
       = User.Username u.
Proof.
  intros name u k. repeat split.
Qed.

(** C10: every newly created UserStat starts with nDatabases = 0 and
    nBytes = 0, and its last-check timestamp is the sentinel that a new
    Database carries; so both counters are strictly below every positive
    ceiling. *)
Theorem userstat_defaults :
  forall (u : User.t) (name : string) (k : Clock) (ceiling : Z),
    0 < ceiling ->
    UserStat.nDatabases (UserStat.__init__ u) = 0
    /\ UserStat.nBytes (UserStat.__init__ u) = 0
    /\ UserStat.dLastCheck (UserStat.__init__ u)
       = Database.dLastCheck (fst (Database.__init__ name k))
    /\ UserStat.nDatabases (UserStat.__init__ u) < ceiling
    /\ UserStat.nBytes (UserStat.__init__ u) < ceiling.
Proof.
  intros u name k ceiling Hpos. cbn. repeat split; assumption.
Qed.

(** ** The password encoding *)

Lemma string_ind3 (P : string -> Prop) :
  P EmptyString ->
  (forall a, P (String a EmptyString)) ->
  (forall a b, P (String a (String b EmptyString))) ->
  (forall a b c rest, P rest -> P (String a (String b (String c rest)))) ->
  forall s, P s.
Proof.
  intros H0 H1 H2 H3.
  assert (Hall : forall s,
             P s /\ (forall a, P (String a s))
             /\ (forall a b, P (String a (String b s)))).
  { induction s as [|c s [IH0 [IH1 IH2]]].
    - repeat split; auto.
    - repeat split; auto. }
  intro s. apply Hall.
Qed.

Lemma b64encode_group (a b c : ascii) (rest : string) :
  b64encode (String a (String b (String c rest)))
  = String (b64_char (sextet1 (N_of_ascii a)))
      (String (b64_char (sextet2 (N_of_ascii a) (N_of_ascii b)))
         (String (b64_char (sextet3 (N_of_ascii b) (N_of_ascii c)))
            (String (b64_char (sextet4 (N_of_ascii c))) (b64encode rest)))).
Proof. reflexivity. Qed.

(** The encoded text has four characters for every three bytes, the
    last group rounded up. *)
Lemma b64encode_length (s : string) :
  String.length (b64encode s) = (4 * ((String.length s + 2) / 3))%nat.
Proof.
  induction s as [| a | a b | a b c rest IH] using string_ind3.
  - reflexivity.
  - reflexivity.
  - reflexivity.
  - rewrite b64encode_group.
    cbn [String.length]. rewrite IH.
    replace (S (S (S (String.length rest))) + 2)%nat
      with ((String.length rest + 2) + 1 * 3)%nat by lia.
    rewrite Nat.div_add by discriminate. lia.
Qed.


(** C6: for every username, password, name and email, a newly created
    User record has access level UL = 1 and enabled flag 1; its creation
    and signup timestamps are the two readings of the clock that the
    constructor takes, one after the other; and its Password column
    holds the base64 text of the password, four characters for every
    three bytes of it, not the password itself. *)
Theorem user_defaults :
  forall (username password name email : string) (k : Clock),
    User.UL (fst (User.__init__ username password name email k)) = 1
    /\ User.bEnabled (fst (User.__init__ username password name email k)) = 1
    /\ User.dCreated (fst (User.__init__ username password name email k))
       = readings k (elapsed k)
    /\ User.dSignup (fst (User.__init__ username password name email k))
       = readings k (S (elapsed k))
    /\ elapsed (snd (User.__init__ username password name email k))
       = S (S (elapsed k))
    /\ User.Password (fst (User.__init__ username password name email k))
       = Some (b64encode password)
    /\ String.length (b64encode password)
       = (4 * ((String.length password + 2) / 3))%nat
    /\ User.Username (fst (User.__init__ username password name email k))
       = username
    /\ User.Name (fst (User.__init__ username password name email k)) = name
    /\ User.Email (fst (User.__init__ username password name email k))
       = email.
Proof.
  intros username password name email k.
  repeat split. apply b64encode_length.
Qed.

(** *** Decoding inverts encoding *)


Lemma N_of_ascii_in_bytes (a : ascii) : In (N_of_ascii a) all_bytes.
Proof.
  unfold all_bytes. apply in_map_iff.
  exists (nat_of_ascii a). split.
  - unfold nat_of_ascii. apply N2Nat.id.
  - apply in_seq. pose proof (nat_ascii_bounded a). lia.
Qed.

Lemma for_all_bytes (P : N -> bool) :
  forallb P all_bytes = true -> forall a : ascii, P (N_of_ascii a) = true.
Proof.
  intros H a. rewrite forallb_forall in H. apply H, N_of_ascii_in_bytes.
Qed.

Lemma for_all_bytes2 (P : N -> N -> bool) :
  forallb (fun a => forallb (P a) all_bytes) all_bytes = true ->
  forall a b : ascii, P (N_of_ascii a) (N_of_ascii b) = true.
Proof.
  intros H a b.
  apply (for_all_bytes (P (N_of_ascii a))).
  apply (for_all_bytes (fun a => forallb (P a) all_bytes) H).
Qed.


Lemma b64_index_char (n : N) :
  is_sextet n = true -> b64_index (b64_char n) = Some n.
Proof.
  unfold is_sextet. intro H. apply N.ltb_lt in H.
  assert (Hn : In n (map N.of_nat (seq 0 64))).
  { apply in_map_iff. exists (N.to_nat n). split.
    - apply N2Nat.id.
    - apply in_seq. lia. }
  revert n Hn H.
  assert (Hall : forallb
            (fun n => match b64_index (b64_char n) with
                      | Some m => N.eqb m n
                      | None => false
                      end) (map N.of_nat (seq 0 64)) = true)
    by (vm_compute; reflexivity).
  rewrite forallb_forall in Hall.
  intros n Hn _. specialize (Hall n Hn).
  destruct (b64_index (b64_char n)) as [m|]; [|discriminate].
  apply N.eqb_eq in Hall. now subst.
Qed.

Lemma b64_char_not_pad (n : N) :
  is_sextet n = true -> Ascii.eqb (b64_char n) b64_pad = false.
Proof.
  intro H. apply b64_index_char in H.
  destruct (Ascii.eqb (b64_char n) b64_pad) eqn:E; [|reflexivity].
  apply Ascii.eqb_eq in E. rewrite E in H. discriminate H.
Qed.

Lemma sextet1_ok (a : ascii) : is_sextet (sextet1 (N_of_ascii a)) = true.
Proof.
  apply (for_all_bytes (fun a => is_sextet (sextet1 a))).
  vm_compute; reflexivity.
Qed.

Lemma sextet2_ok (a b : ascii) :
  is_sextet (sextet2 (N_of_ascii a) (N_of_ascii b)) = true.
Proof.
  apply (for_all_bytes2 (fun a b => is_sextet (sextet2 a b))).
  vm_compute; reflexivity.
Qed.

Lemma sextet3_ok (b c : ascii) :
  is_sextet (sextet3 (N_of_ascii b) (N_of_ascii c)) = true.
Proof.
  apply (for_all_bytes2 (fun b c => is_sextet (sextet3 b c))).
  vm_compute; reflexivity.
Qed.

Lemma sextet4_ok (c : ascii) : is_sextet (sextet4 (N_of_ascii c)) = true.
Proof.
  apply (for_all_bytes (fun c => is_sextet (sextet4 c))).
  vm_compute; reflexivity.
Qed.

Lemma octet1_sextets (a b : ascii) :
  octet1 (sextet1 (N_of_ascii a)) (sextet2 (N_of_ascii a) (N_of_ascii b)) = a.
Proof.
  unfold octet1.
  assert (H : N.eqb (N.lor (N.shiftl (sextet1 (N_of_ascii a)) 2)
                       (N.shiftr (sextet2 (N_of_ascii a) (N_of_ascii b)) 4))
                (N_of_ascii a) = true).
  { apply (for_all_bytes2
             (fun a b => N.eqb (N.lor (N.shiftl (sextet1 a) 2)
                                  (N.shiftr (sextet2 a b) 4)) a)).
    vm_compute; reflexivity. }
  apply N.eqb_eq in H. rewrite H. apply ascii_N_embedding.
Qed.

Lemma sextet2_low (a b : ascii) :
  N.land (sextet2 (N_of_ascii a) (N_of_ascii b)) 15
  = N.shiftr (N_of_ascii b) 4.
Proof.
  apply N.eqb_eq.
  apply (for_all_bytes2
           (fun a b => N.eqb (N.land (sextet2 a b) 15) (N.shiftr b 4))).
  vm_compute; reflexivity.
Qed.

Lemma sextet3_high (b c : ascii) :
  N.shiftr (sextet3 (N_of_ascii b) (N_of_ascii c)) 2
  = N.land (N_of_ascii b) 15.
Proof.
  apply N.eqb_eq.
  apply (for_all_bytes2
           (fun b c => N.eqb (N.shiftr (sextet3 b c) 2) (N.land b 15))).
  vm_compute; reflexivity.
Qed.

Lemma nibbles_join (b : ascii) :
  N.lor (N.shiftl (N.shiftr (N_of_ascii b) 4) 4) (N.land (N_of_ascii b) 15)
  = N_of_ascii b.
Proof.
  apply N.eqb_eq.
  apply (for_all_bytes
           (fun b => N.eqb (N.lor (N.shiftl (N.shiftr b 4) 4) (N.land b 15)) b)).
  vm_compute; reflexivity.
Qed.

Lemma octet2_sextets (a b c : ascii) :
  octet2 (sextet2 (N_of_ascii a) (N_of_ascii b))
    (sextet3 (N_of_ascii b) (N_of_ascii c)) = b.
Proof.
  unfold octet2.
  rewrite sextet2_low, sextet3_high, nibbles_join.
  apply ascii_N_embedding.
Qed.

Lemma octet3_sextets (b c : ascii) :
  octet3 (sextet3 (N_of_ascii b) (N_of_ascii c)) (sextet4 (N_of_ascii c)) = c.
Proof.
  unfold octet3.
  assert (H : N.eqb (N.lor (N.shiftl
                              (N.land (sextet3 (N_of_ascii b) (N_of_ascii c)) 3)
                              6)
                       (sextet4 (N_of_ascii c)))
                (N_of_ascii c) = true).
  { apply (for_all_bytes2
             (fun b c => N.eqb (N.lor (N.shiftl (N.land (sextet3 b c) 3) 6)
                                  (sextet4 c)) c)).
    vm_compute; reflexivity. }
  apply N.eqb_eq in H. rewrite H. apply ascii_N_embedding.
Qed.


Lemma b64decode_b64encode (s : string) : b64decode (b64encode s) = Some s.
Proof.
  induction s as [| a | a b | a b c rest IH] using string_ind3.
  - reflexivity.
  - cbn [b64encode b64decode].
    change 0%N with (N_of_ascii zero).
    rewrite (b64_index_char _ (sextet1_ok a)).
    rewrite (b64_index_char _ (sextet2_ok a zero)).
    rewrite Ascii.eqb_refl.
    now rewrite octet1_sextets.
  - cbn [b64encode b64decode].
    change 0%N with (N_of_ascii zero).
    rewrite (b64_index_char _ (sextet1_ok a)).
    rewrite (b64_index_char _ (sextet2_ok a b)).
    rewrite (b64_char_not_pad _ (sextet3_ok b zero)).
    rewrite (b64_index_char _ (sextet3_ok b zero)).
    rewrite Ascii.eqb_refl.
    now rewrite octet1_sextets, octet2_sextets.
  - rewrite b64encode_group.
    cbn [b64decode].
    rewrite (b64_index_char _ (sextet1_ok a)).
    rewrite (b64_index_char _ (sextet2_ok a b)).
    rewrite (b64_char_not_pad _ (sextet3_ok b c)).
    rewrite (b64_index_char _ (sextet3_ok b c)).
    rewrite (b64_char_not_pad _ (sextet4_ok c)).
    rewrite (b64_index_char _ (sextet4_ok c)).
    rewrite IH.
    now rewrite octet1_sextets, octet2_sextets, octet3_sextets.
Qed.

(** C8: the stored User.Password is a reversible encoding of the
    plaintext: for every password, the column written by set_password
    holds a text that the base64 decoder turns back into exactly that
    password; hence two different passwords are never stored as the same
    text. *)
Theorem password_round_trip :
  forall (self : User.t) (password : string),
    User.Password (User.set_password self password)
    = Some (b64encode password)
    /\ b64decode (b64encode password) = Some password
    /\ (forall other : string,
           User.Password (User.set_password self other)
           = User.Password (User.set_password self password)
           <-> other = password).
Proof.
  intros self password. split; [reflexivity|]. split.
  - apply b64decode_b64encode.
  - intro other. cbn [User.set_password User.Password]. split.
    + intro H. injection H as H.
      pose proof (b64decode_b64encode other) as Ho.
      rewrite H, b64decode_b64encode in Ho. now injection Ho.
    + now intros ->.
Qed.

(** ** The escaping pass *)

Lemma append_empty_r (s : string) : s ++ "" = s.
Proof.
  induction s as [|c s IH]; [reflexivity|]. cbn. now rewrite IH.
Qed.

Lemma formatify_cons (c : ascii) (s : string) :
  formatify (String c s)
  = if Ascii.eqb c "%" then String "%" (String "%" (formatify s))
    else String c (formatify s).
Proof.
  unfold formatify. cbn [replace_char].
  destruct (Ascii.eqb c "%"); reflexivity.
Qed.

Lemma formatify_app (a b : string) :
  formatify (a ++ b) = formatify a ++ formatify b.
Proof.
  induction a as [|c a IH]; [reflexivity|].
  cbn [append]. rewrite !formatify_cons, IH.
  destruct (Ascii.eqb c "%"); reflexivity.
Qed.

(** After [formatify] no percent sign stands alone. *)
Lemma percent_escaped_formatify (s : string) :
  percent_escaped (formatify s) = true.
Proof.
  induction s as [|c s IH]; [reflexivity|].
  rewrite formatify_cons.
  destruct (Ascii.eqb c "%") eqn:E.
  - cbn. exact IH.
  - cbn [percent_escaped]. rewrite E. exact IH.
Qed.

(** The substitution pass of the driver, [text % ()], gives back the
    statement that was escaped: no percent sign of it is taken for a
    conversion. *)
Lemma pyformat_formatify (s : string) : pyformat (formatify s) [] = Some s.
Proof.
  induction s as [|c s IH]; [reflexivity|].
  rewrite formatify_cons.
  destruct (Ascii.eqb c "%") eqn:E.
  - apply Ascii.eqb_eq in E. subst c. cbn. now rewrite IH.
  - cbn [pyformat]. rewrite E, IH. reflexivity.
Qed.

(** Each hook renders its template. *)
Lemma compile_statement_text (element : DDLElement) (compiler : Compiler) :
  compile element compiler
  = Some (formatify (statement_text element compiler)).
Proof.
  destruct element as [e|e|e|e|e|e|e]; destruct e; cbn;
    rewrite ?append_empty_r; reflexivity.
Qed.

(** C2: for every DDL element (CreateDatabase, DropDatabase, CreateUser,
    DropUser, ChangePassword, Grant, Revoke), every input and every
    identifier and literal rule of the dialect, the hook returns the
    template filled in and then passed through formatify: the text
    handed over has no unpaired percent sign, and the driver's
    substitution pass turns it back into exactly the statement that was
    rendered. *)
Theorem rendered_statement_is_escaped :
  forall (element : DDLElement) (compiler : Compiler)
         (backend : string -> bool) (w : World),
    compile element compiler
    = Some (formatify (statement_text element compiler))
    /\ percent_escaped (formatify (statement_text element compiler)) = true
    /\ pyformat (formatify (statement_text element compiler)) []
       = Some (statement_text element compiler)
    /\ issued (snd (execute compiler backend element w))
       = (issued w ++ [formatify (statement_text element compiler)])%list.
Proof.
  intros element compiler backend w. split; [|split; [|split]].
  - apply compile_statement_text.
  - apply percent_escaped_formatify.
  - apply pyformat_formatify.
  - unfold execute. rewrite compile_statement_text.
    destruct (backend _); reflexivity.
Qed.

(** C7: for every database name and identifier rule, the DropDatabase
    hook returns the text DROP DATABASE, a space, the clause, a space
    and the quoted name (percent signs doubled), where the clause is IF
    EXISTS when the ignore flag is set and empty otherwise; so the text
    begins with DROP DATABASE IF EXISTS exactly when the flag is set. *)
Theorem drop_database_statement :
  forall (name : string) (ignore : bool) (compiler : Compiler),
    visit_drop_database (DropDatabase.__init__ name (Some ignore)) compiler
    = Some ("DROP DATABASE "
              ++ (if ignore then "IF EXISTS" else "")
              ++ " " ++ formatify (quote_identifier compiler name))
    /\ (String.prefix "DROP DATABASE IF EXISTS "
          ("DROP DATABASE "
             ++ (if ignore then "IF EXISTS" else "")
             ++ " " ++ formatify (quote_identifier compiler name)) = true
        <-> ignore = true).
Proof.
  intros name ignore compiler. split.
  - change (DropDatabase.__init__ name (Some ignore))
      with (DropDatabase.mk name ignore).
    pose proof (compile_statement_text
                  (EDropDatabase (DropDatabase.mk name ignore)) compiler) as H.
    cbn [compile] in H. rewrite H. cbn [statement_text DropDatabase.ignore
                                         DropDatabase.name].
    rewrite !formatify_app. destruct ignore; reflexivity.
  - destruct ignore; cbn.
    + split; [reflexivity|]. intros _.
      destruct (formatify (quote_identifier compiler name)); reflexivity.
    + split; discriminate.
Qed.


(** ** Quoting *)

Lemma quote_scan_app (st : qstate) (a b : string) :
  quote_scan st (a ++ b) = quote_scan (quote_scan st a) b.
Proof.
  revert st. induction a as [|c a IH]; intro st; [reflexivity|].
  cbn. apply IH.
Qed.

Lemma closes_at_end_scan (st : qstate) (s : string) :
  closes_at_end st s = true -> quote_scan st s = Closing.
Proof.
  revert st. induction s as [|c s IH]; intros st H.
  - destruct st; try discriminate H. reflexivity.
  - cbn in *. destruct (qstep st c); try discriminate H; now apply IH.
Qed.

Lemma single_literal_scan (s : string) :
  single_literal s = true -> quote_scan Outside s = Closing.
Proof.
  destruct s as [|c body]; [discriminate|].
  unfold single_literal. intro H. apply andb_prop in H as [Hq Hbody].
  cbn. rewrite Hq. now apply closes_at_end_scan.
Qed.

(** Doubling the percent signs does not move a quote: a percent sign is
    neither a quote nor a backslash. *)
Lemma closes_at_end_formatify (st : qstate) (s : string) :
  closes_at_end st (formatify s) = closes_at_end st s.
Proof.
  revert st. induction s as [|c s IH]; intro st; [reflexivity|].
  rewrite formatify_cons.
  destruct (Ascii.eqb c "%") eqn:E.
  - apply Ascii.eqb_eq in E. subst c.
    destruct st; cbn; try reflexivity; apply IH.
  - cbn [closes_at_end]. destruct (qstep st c); try reflexivity; apply IH.
Qed.

Lemma single_literal_formatify (s : string) :
  single_literal s = true -> single_literal (formatify s) = true.
Proof.
  destruct s as [|c body]; [discriminate|].
  unfold single_literal. intro H. apply andb_prop in H as [Hq Hbody].
  apply Ascii.eqb_eq in Hq. subst c.
  rewrite formatify_cons. cbn. now rewrite closes_at_end_formatify.
Qed.

(** C3: rendering CreateUser for name o'brien, host localhost and
    password p@55% gives the template CREATE USER 'name'@'host'
    IDENTIFIED BY 'passwd' with each slot holding the dialect's literal
    for the value, percent signs doubled.  When the dialect's rule makes
    each of the three values one string literal with its quotes
    escaped, each slot of the final text is still one such literal, no
    quote of the final text is unguarded and no percent sign of it is
    unpaired. *)
Theorem create_user_obrien :
  forall compiler : Compiler,
    single_literal (render_literal_value compiler "o'brien") = true ->
    single_literal (render_literal_value compiler "localhost") = true ->
    single_literal (render_literal_value compiler "p@55%") = true ->
    visit_create_user (CreateUser.__init__ "o'brien" "localhost" "p@55%")
      compiler
    = Some ("CREATE USER "
              ++ formatify (render_literal_value compiler "o'brien")
              ++ "@" ++ formatify (render_literal_value compiler "localhost")
              ++ " IDENTIFIED BY "
              ++ formatify (render_literal_value compiler "p@55%"))
    /\ single_literal (formatify (render_literal_value compiler "o'brien"))
       = true
    /\ single_literal (formatify (render_literal_value compiler "localhost"))
       = true
    /\ single_literal (formatify (render_literal_value compiler "p@55%"))
       = true
    /\ percent_escaped
         ("CREATE USER "
            ++ formatify (render_literal_value compiler "o'brien")
            ++ "@" ++ formatify (render_literal_value compiler "localhost")
            ++ " IDENTIFIED BY "
            ++ formatify (render_literal_value compiler "p@55%")) = true
    /\ quotes_guarded
         ("CREATE USER "
            ++ formatify (render_literal_value compiler "o'brien")
            ++ "@" ++ formatify (render_literal_value compiler "localhost")
            ++ " IDENTIFIED BY "
            ++ formatify (render_literal_value compiler "p@55%")) = true.
Proof.
  intros compiler Hname Hhost Hpasswd.
  pose proof (single_literal_formatify _ Hname) as Fname.
  pose proof (single_literal_formatify _ Hhost) as Fhost.
  pose proof (single_literal_formatify _ Hpasswd) as Fpasswd.
  assert (Htext :
            formatify
              (statement_text
                 (ECreateUser (CreateUser.__init__ "o'brien" "localhost" "p@55%"))
                 compiler)
            = "CREATE USER "
                ++ formatify (render_literal_value compiler "o'brien")
                ++ "@" ++ formatify (render_literal_value compiler "localhost")
                ++ " IDENTIFIED BY "
                ++ formatify (render_literal_value compiler "p@55%")).
  { cbn [statement_text CreateUser.__init__ CreateUser.name CreateUser.host
           CreateUser.passwd].
    rewrite !formatify_app. reflexivity. }
  repeat split; try assumption.
  - pose proof (compile_statement_text
                  (ECreateUser
                     (CreateUser.__init__ "o'brien" "localhost" "p@55%"))
                  compiler) as H.
    cbn [compile] in H. rewrite H, Htext. reflexivity.
  - rewrite <- Htext. apply percent_escaped_formatify.
  - unfold quotes_guarded.
    rewrite !quote_scan_app.
    change (quote_scan Outside "CREATE USER ") with Outside.
    rewrite (single_literal_scan _ Fname).
    change (quote_scan Closing "@") with Outside.
    rewrite (single_literal_scan _ Fhost).
    change (quote_scan Closing " IDENTIFIED BY ") with Outside.
    rewrite (single_literal_scan _ Fpasswd).
    reflexivity.
Qed.

(** With MySQL's rules the text is the one expected. *)
Lemma create_user_obrien_mysql :
  visit_create_user (CreateUser.__init__ "o'brien" "localhost" "p@55%")
    mysql_compiler
  = Some "CREATE USER 'o''brien'@'localhost' IDENTIFIED BY 'p@55%%'"
  /\ percent_escaped
       "CREATE USER 'o''brien'@'localhost' IDENTIFIED BY 'p@55%%'" = true
  /\ quotes_guarded
       "CREATE USER 'o''brien'@'localhost' IDENTIFIED BY 'p@55%%'" = true.
Proof.
  pose proof (create_user_obrien mysql_compiler
                eq_refl eq_refl eq_refl) as [H1 [_ [_ [_ [H2 H3]]]]].
  split; [exact H1 | split; [exact H2 | exact H3]].
Defined.

Lemma userstat_defaults_default_quota :
  UserStat.nDatabases (UserStat.__init__ (fst (User.__init__ "alice" "secret" "Alice" "alice@mit.edu" example_clock))) < 20.
Proof.
  apply (userstat_defaults
           (fst (User.__init__ "alice" "secret" "Alice" "alice@mit.edu"
                   example_clock))
           "alice_db" example_clock 20).
  lia.
Defined.

(** ** Quota and provisioning *)

Section Quota.

Variable compiler : Compiler.
Variable backend : string -> bool.
Variable host : string.
Hypothesis backend_accepts : forall text, backend text = true.

Lemma find_account_username (owner : string) (l : list Account) (u : Account) :
  find_account owner l = Some u -> User.Username (user u) = owner.
Proof.
  induction l as [|a l IH]; [discriminate|].
  cbn. destruct (String.eqb (User.Username (user a)) owner) eqn:E.
  - intro H. injection H as <-. now apply String.eqb_eq.
  - exact IH.
Qed.

Lemma CreateDatabase_refused (name owner : string) (u : Account) (w : World) :
  find_account owner (accounts (store w)) = Some u ->
  canCreateDatabase u = false ->
  CreateDatabase compiler backend host name owner w = (Err QuotaExceeded, w).
Proof.
  intros Hfind Hcan.
  unfold CreateDatabase, op_bind, get_store. rewrite Hfind, Hcan. reflexivity.
Qed.

Lemma CreateDatabase_done (name owner : string) (u : Account) (w : World) :
  find_account owner (accounts (store w)) = Some u ->
  canCreateDatabase u = true ->
  database_exists name (databases (store w)) = false ->
  exists (k : Clock) (d : Database.t) (o : DBOwner.t) (q : DBQuota.t)
         (texts : list string),
    CreateDatabase compiler backend host name owner w
    = (Ok tt,
       usage_accounting owner
         (mkWorld k
            (mkStore (accounts (store w)) (databases (store w) ++ [d])
               (owners (store w) ++ [o]) (dbquotas (store w) ++ [q]))
            texts))
    /\ Database.Name d = name
    /\ DBOwner.user o = owner.
Proof.
  intros Hfind Hcan Hfresh.
  unfold CreateDatabase, op_bind, get_store. rewrite Hfind, Hcan, Hfresh.
  unfold execute. rewrite !compile_statement_text, !backend_accepts.
  cbn.
  do 5 eexists. split; [reflexivity|]. split; [reflexivity|].
  now apply find_account_username with (l := accounts (store w)).
Qed.

Lemma find_account_recount (owner : string) (s : Store) (l : list Account)
    (u : Account) :
  find_account owner l = Some u ->
  find_account owner (map (recount_account s owner) l)
  = Some (recount_account s owner u).
Proof.
  induction l as [|a l IH]; [discriminate|].
  cbn [find_account map].
  destruct (String.eqb (User.Username (user a)) owner) eqn:E.
  - intro H. injection H as <-.
    unfold recount_account at 1. rewrite E. cbn [user]. rewrite E.
    unfold recount_account. now rewrite E.
  - intro H. unfold recount_account at 1. rewrite E, E. now apply IH.
Qed.

Lemma count_owned_snoc (owner : string) (l : list DBOwner.t) (o : DBOwner.t) :
  DBOwner.user o = owner ->
  count_owned owner (l ++ [o]) = count_owned owner l + 1.
Proof.
  intro H. unfold count_owned.
  rewrite filter_app, length_app. cbn [filter].
  rewrite H, String.eqb_refl. cbn [List.length]. lia.
Qed.

Lemma database_exists_snoc (n : string) (l : list Database.t) (d : Database.t) :
  database_exists n l = false ->
  Database.Name d <> n ->
  database_exists n (l ++ [d]) = false.
Proof.
  intros Hl Hd. unfold database_exists in *.
  rewrite existsb_app, Hl. cbn.
  apply String.eqb_neq in Hd. now rewrite Hd.
Qed.

Lemma quota_state_accounted (owner : string) (q : UserQuota.t) (r : nat)
    (w : World) (u : Account) :
  find_account owner (accounts (store w)) = Some u ->
  quota u = q ->
  count_owned owner (owners (store w))
  = UserQuota.nDatabasesHard q - Z.of_nat r ->
  Z.of_nat r <= UserQuota.nDatabasesHard q ->
  quota_state owner q r (usage_accounting owner w).
Proof.
  intros Hfind Hq Hcount Hr.
  exists (recount_account (store w) owner u).
  unfold usage_accounting. cbn [store accounts owners].
  rewrite (find_account_recount _ _ _ _ Hfind).
  pose proof (find_account_username _ _ _ Hfind) as Hname.
  unfold recount_account. apply String.eqb_eq in Hname. rewrite Hname.
  cbn. repeat split; assumption.
Qed.

(** The run of the scenario from a state in which [r] databases are
    left before the ceiling: the calls succeed until none is left and
    are refused from then on. *)
Lemma create_each_run (owner : string) (q : UserQuota.t)
    (names : list string) :
  forall (r : nat) (w : World),
    quota_state owner q r w ->
    NoDup names ->
    (forall n, In n names -> database_exists n (databases (store w)) = false) ->
    map fst (create_each compiler backend host names owner w)
    = (repeat (Ok tt) (Nat.min (List.length names) r)
         ++ repeat (Err QuotaExceeded) (List.length names - r))%list
    /\ Forall (fun rw => exists r', quota_state owner q r' (snd rw))
         (create_each compiler backend host names owner w).
Proof.
  induction names as [|n names IH]; intros r w Hstate Hdup Hfresh.
  - split; [reflexivity | constructor].
  - pose proof Hstate as [u [Hfind [Hq [Hstat [Hcount Hr]]]]].
    inversion Hdup as [|? ? Hnotin Hdup']; subst.
    cbn [create_each].
    destruct r as [|r].
    + (* the ceiling is reached *)
      assert (Hcan : canCreateDatabase u = false).
      { unfold canCreateDatabase. apply Z.ltb_ge. lia. }
      rewrite (CreateDatabase_refused _ _ _ _ Hfind Hcan).
      cbn [fst snd].
      destruct (IH 0%nat w Hstate Hdup') as [IHr IHw].
      { intros n' Hn'. apply Hfresh. now right. }
      split.
      * cbn [map fst]. rewrite IHr.
        rewrite Nat.min_0_r, Nat.sub_0_r. reflexivity.
      * constructor; [now exists 0%nat | exact IHw].
    + (* one more database fits *)
      assert (Hcan : canCreateDatabase u = true).
      { unfold canCreateDatabase. apply Z.ltb_lt. lia. }
      destruct (CreateDatabase_done n owner u w Hfind Hcan)
        as [k [d [o [dq [texts [Hrun [Hd Ho]]]]]]].
      { apply Hfresh. now left. }
      rewrite Hrun. cbn [fst snd].
      set (w1 := mkWorld k _ texts).
      assert (Hnext : quota_state owner (quota u) r (usage_accounting owner w1)).
      { apply quota_state_accounted with (u := u).
        - exact Hfind.
        - reflexivity.
        - cbn [w1 store owners]. rewrite (count_owned_snoc _ _ _ Ho). lia.
        - lia. }
      destruct (IH r (usage_accounting owner w1) Hnext Hdup') as [IHr IHw].
      { intros n' Hn'. cbn.
        apply database_exists_snoc.
        - apply Hfresh. now right.
        - rewrite Hd. intros ->. contradiction. }
      split.
      * cbn [map fst]. rewrite IHr. reflexivity.
      * constructor; [now exists r | exact IHw].
Qed.

End Quota.


Lemma example_names_distinct : NoDup example_names.
Proof.
  unfold example_names.
  repeat (constructor; [cbn; intuition discriminate|]). constructor.
Qed.


(* ===================================================================== *)
(** * Further properties                                                  *)
(* ===================================================================== *)

(** ** [formatify] *)

Lemma formatify_length_count (s : string) :
  String.length (formatify s) = (String.length s + count_char "%" s)%nat.
Proof.
  induction s as [|c s IH]; [reflexivity|].
  rewrite formatify_cons. cbn [count_char String.length].
  destruct (Ascii.eqb c "%"); cbn [String.length]; rewrite IH; lia.
Qed.

Lemma formatify_no_percent (s : string) :
  count_char "%" s = 0%nat -> formatify s = s.
Proof.
  induction s as [|c s IH]; [reflexivity|].
  rewrite formatify_cons. cbn [count_char].
  destruct (Ascii.eqb c "%"); [discriminate|].
  intro H. now rewrite IH.
Qed.

(** X1: formatify returns its argument unchanged exactly when the
    argument has no percent sign; so it must be applied once and only
    once: a second pass changes every text that the first pass had to
    change. *)
Theorem formatify_unchanged_iff :
  forall s : string,
    (formatify s = s <-> count_char "%" s = 0%nat)
    /\ (formatify (formatify s) = formatify s <-> count_char "%" s = 0%nat).
Proof.
  intro s.
  assert (H1 : formatify s = s <-> count_char "%" s = 0%nat).
  { split.
    - intro H. pose proof (formatify_length_count s) as L.
      rewrite H in L. lia.
    - apply formatify_no_percent. }
  split; [exact H1|]. split.
  - intro H. apply H1.
    pose proof (pyformat_formatify (formatify s)) as P.
    rewrite H, pyformat_formatify in P. now injection P.
  - intro H. apply H1 in H. now rewrite H.
Qed.

(** X2: formatify adds one character for every percent sign of its
    argument and doubles the number of percent signs. *)
Theorem formatify_length :
  forall s : string,
    String.length (formatify s) = (String.length s + count_char "%" s)%nat
    /\ count_char "%" (formatify s) = (2 * count_char "%" s)%nat.
Proof.
  intro s. split; [apply formatify_length_count|].
  induction s as [|c s IH]; [reflexivity|].
  rewrite formatify_cons. cbn [count_char].
  destruct (Ascii.eqb c "%") eqn:E.
  - cbn. rewrite IH. lia.
  - cbn [count_char]. rewrite E. exact IH.
Qed.

(** X3: formatify loses nothing: two texts are escaped to the same text
    only if they are the same text. *)
Theorem formatify_injective :
  forall a b : string, formatify a = formatify b <-> a = b.
Proof.
  intros a b. split; [|now intros ->].
  intro H. pose proof (pyformat_formatify a) as P.
  rewrite H, pyformat_formatify in P. now injection P.
Qed.

Lemma quote_scan_formatify (st : qstate) (s : string) :
  quote_scan st (formatify s) = quote_scan st s.
Proof.
  revert st. induction s as [|c s IH]; intro st; [reflexivity|].
  rewrite formatify_cons.
  destruct (Ascii.eqb c "%") eqn:E.
  - apply Ascii.eqb_eq in E. subst c.
    destruct st; cbn; apply IH.
  - cbn [quote_scan]. apply IH.
Qed.

(** X4: formatify never changes the quoting of a statement: read from
    any state, the escaped text leaves the lexer in the state the
    unescaped text leaves it in, so every quote is guarded after the
    pass exactly when it was before. *)
Theorem formatify_keeps_quoting :
  forall (st : qstate) (s : string),
    quote_scan st (formatify s) = quote_scan st s
    /\ quotes_guarded (formatify s) = quotes_guarded s.
Proof.
  intros st s. split; [apply quote_scan_formatify|].
  unfold quotes_guarded. now rewrite quote_scan_formatify.
Qed.

(** ** The compile hooks *)

Lemma append_assoc (a b c : string) : (a ++ b) ++ c = a ++ (b ++ c).
Proof.
  induction a as [|x a IH]; [reflexivity|]. cbn. now rewrite IH.
Qed.

Lemma replace_char_app (old : ascii) (new a b : string) :
  replace_char old new (a ++ b)
  = replace_char old new a ++ replace_char old new b.
Proof.
  induction a as [|c a IH]; [reflexivity|].
  cbn [append replace_char]. rewrite IH.
  destruct (Ascii.eqb c old); [|reflexivity].
  now rewrite append_assoc.
Qed.

(** MySQL's literal rule makes one guarded literal of every value. *)
Lemma mysql_literal_body (value : string) :
  closes_at_end Inside
    (replace_char "\" "\\" (replace_char "'" "''" value) ++ "'") = true.
Proof.
  induction value as [|c value IH]; [reflexivity|].
  cbn [replace_char].
  destruct (Ascii.eqb c "'") eqn:Eq.
  - cbn. exact IH.
  - cbn [replace_char].
    destruct (Ascii.eqb c "\") eqn:Eb.
    + cbn. exact IH.
    + cbn [append closes_at_end qstep].
      change quote with "'"%char. change backslash with "\"%char.
      rewrite Eq, Eb. exact IH.
Qed.

Lemma mysql_literal_single (value : string) :
  single_literal (mysql_render_literal_value value) = true.
Proof.
  unfold mysql_render_literal_value.
  change ("'" ++ replace_char "'" "''" value ++ "'")
    with (String "'" (replace_char "'" "''" value ++ "'")).
  cbn [replace_char]. change (Ascii.eqb "'" "\") with false. cbv iota.
  rewrite replace_char_app.
  unfold single_literal. cbn [andb]. rewrite Ascii.eqb_refl.
  apply mysql_literal_body.
Qed.

(** X5: whatever the name, host and password, when the dialect renders
    every value as one string literal with its quotes escaped, the
    CREATE USER, DROP USER and SET PASSWORD statements are rendered, no
    quote of them is unguarded and no percent sign of them is
    unpaired. *)
Theorem account_statements_guarded :
  forall (compiler : Compiler) (name host passwd : string),
    (forall value, single_literal (render_literal_value compiler value) = true) ->
    (exists text,
        visit_create_user (CreateUser.__init__ name host passwd) compiler
        = Some text
        /\ quotes_guarded text = true /\ percent_escaped text = true)
    /\ (exists text,
           visit_drop_user (DropUser.__init__ name host) compiler = Some text
           /\ quotes_guarded text = true /\ percent_escaped text = true)
    /\ (exists text,
           visit_change_password (ChangePassword.__init__ name host passwd)
             compiler = Some text
           /\ quotes_guarded text = true /\ percent_escaped text = true).
Proof.
  intros compiler name host passwd Hlit.
  pose proof (fun v => single_literal_scan _ (Hlit v)) as Hscan.
  split; [|split].
  - exists (formatify
              (statement_text
                 (ECreateUser (CreateUser.__init__ name host passwd)) compiler)).
    split; [apply (compile_statement_text (ECreateUser _))|].
    split; [|apply percent_escaped_formatify].
    unfold quotes_guarded. rewrite quote_scan_formatify.
    cbn [statement_text CreateUser.__init__ CreateUser.name CreateUser.host
           CreateUser.passwd].
    rewrite !quote_scan_app.
    change (quote_scan Outside "CREATE USER ") with Outside.
    rewrite Hscan. change (quote_scan Closing "@") with Outside.
    rewrite Hscan. change (quote_scan Closing " IDENTIFIED BY ") with Outside.
    now rewrite Hscan.
  - exists (formatify
              (statement_text
                 (EDropUser (DropUser.__init__ name host)) compiler)).
    split; [apply (compile_statement_text (EDropUser _))|].
    split; [|apply percent_escaped_formatify].
    unfold quotes_guarded. rewrite quote_scan_formatify.
    cbn [statement_text DropUser.__init__ DropUser.name DropUser.host].
    rewrite !quote_scan_app.
    change (quote_scan Outside "DROP USER ") with Outside.
    rewrite Hscan. change (quote_scan Closing "@") with Outside.
    now rewrite Hscan.
  - exists (formatify
              (statement_text
                 (EChangePassword (ChangePassword.__init__ name host passwd))
                 compiler)).
    split; [apply (compile_statement_text (EChangePassword _))|].
    split; [|apply percent_escaped_formatify].
    unfold quotes_guarded. rewrite quote_scan_formatify.
    cbn [statement_text ChangePassword.__init__ ChangePassword.name
           ChangePassword.host ChangePassword.passwd].
    rewrite !quote_scan_app.
    change (quote_scan Outside "SET PASSWORD FOR ") with Outside.
    rewrite Hscan. change (quote_scan Closing "@") with Outside.
    rewrite Hscan. change (quote_scan Closing " = PASSWORD(") with Outside.
    now rewrite Hscan.
Qed.

Lemma account_statements_guarded_mysql :
  exists text,
    visit_change_password
      (ChangePassword.__init__ "o'brien" "%" "it's 100% \ safe") mysql_compiler
    = Some text
    /\ quotes_guarded text = true /\ percent_escaped text = true.
Proof.
  exact (proj2 (proj2 (account_statements_guarded mysql_compiler
                         "o'brien" "%" "it's 100% \ safe"
                         mysql_literal_single))).
Defined.

(** X7: the statements about one account name it with the same text:
    for the same name and host, CREATE USER, DROP USER, SET PASSWORD,
    GRANT and REVOKE all carry the account as the escaped literal of the
    name, an at sign and the escaped literal of the host, and GRANT and
    REVOKE for the same database carry the same object. *)
Theorem statements_share_account :
  forall (compiler : Compiler) (db name host passwd : string),
    visit_create_user (CreateUser.__init__ name host passwd) compiler
    = Some ("CREATE USER "
              ++ (formatify (render_literal_value compiler name) ++ "@"
                    ++ formatify (render_literal_value compiler host))
              ++ " IDENTIFIED BY "
              ++ formatify (render_literal_value compiler passwd))
    /\ visit_drop_user (DropUser.__init__ name host) compiler
       = Some ("DROP USER "
                 ++ (formatify (render_literal_value compiler name) ++ "@"
                       ++ formatify (render_literal_value compiler host)))
    /\ visit_change_password (ChangePassword.__init__ name host passwd)
         compiler
       = Some ("SET PASSWORD FOR "
                 ++ (formatify (render_literal_value compiler name) ++ "@"
                       ++ formatify (render_literal_value compiler host))
                 ++ " = PASSWORD("
                 ++ formatify (render_literal_value compiler passwd) ++ ")")
    /\ visit_grant (Grant.__init__ db name host) compiler
       = Some ("GRANT ALL ON "
                 ++ (formatify (quote_identifier compiler db) ++ ".*")
                 ++ " TO "
                 ++ (formatify (render_literal_value compiler name) ++ "@"
                       ++ formatify (render_literal_value compiler host)))
    /\ visit_revoke (Revoke.__init__ db name host) compiler
       = Some ("REVOKE ALL ON "
                 ++ (formatify (quote_identifier compiler db) ++ ".*")
                 ++ " FROM "
                 ++ (formatify (render_literal_value compiler name) ++ "@"
                       ++ formatify (render_literal_value compiler host))).
Proof.
  intros compiler db name host passwd.
  pose proof (compile_statement_text
                (ECreateUser (CreateUser.__init__ name host passwd)) compiler)
    as H1.
  pose proof (compile_statement_text
                (EDropUser (DropUser.__init__ name host)) compiler) as H2.
  pose proof (compile_statement_text
                (EChangePassword (ChangePassword.__init__ name host passwd))
                compiler) as H3.
  pose proof (compile_statement_text
                (EGrant (Grant.__init__ db name host)) compiler) as H4.
  pose proof (compile_statement_text
                (ERevoke (Revoke.__init__ db name host)) compiler) as H5.
  cbn [compile] in *.
  rewrite H1, H2, H3, H4, H5. cbn [statement_text].
  cbn [CreateUser.__init__ CreateUser.name CreateUser.host CreateUser.passwd
       DropUser.__init__ DropUser.name DropUser.host
       ChangePassword.__init__ ChangePassword.name ChangePassword.host
       ChangePassword.passwd
       Grant.__init__ Grant.db Grant.user Grant.host
       Revoke.__init__ Revoke.db Revoke.user Revoke.host].
  rewrite !formatify_app.
  repeat split; cbn; rewrite ?append_assoc; reflexivity.
Qed.

(** ** The stored password *)

Lemma b64_char_text (n : N) :
  is_sextet n = true -> b64_text_char (b64_char n) = true.
Proof.
  intro H. unfold b64_text_char. now rewrite (b64_index_char _ H).
Qed.

Lemma b64encode_text (s : string) :
  string_forallb b64_text_char (b64encode s) = true.
Proof.
  induction s as [| a | a b | a b c rest IH] using string_ind3.
  - reflexivity.
  - cbn [b64encode string_forallb].
    change 0%N with (N_of_ascii zero).
    rewrite (b64_char_text _ (sextet1_ok a)).
    rewrite (b64_char_text _ (sextet2_ok a zero)). reflexivity.
  - cbn [b64encode string_forallb].
    change 0%N with (N_of_ascii zero).
    rewrite (b64_char_text _ (sextet1_ok a)).
    rewrite (b64_char_text _ (sextet2_ok a b)).
    rewrite (b64_char_text _ (sextet3_ok b zero)). reflexivity.
  - rewrite b64encode_group. cbn [string_forallb].
    rewrite (b64_char_text _ (sextet1_ok a)).
    rewrite (b64_char_text _ (sextet2_ok a b)).
    rewrite (b64_char_text _ (sextet3_ok b c)).
    rewrite (b64_char_text _ (sextet4_ok c)). exact IH.
Qed.

Lemma count_char_excluded (p : ascii -> bool) (c : ascii) (s : string) :
  p c = false -> string_forallb p s = true -> count_char c s = 0%nat.
Proof.
  intros Hc. induction s as [|d s IH]; [reflexivity|].
  cbn [string_forallb count_char]. intro H.
  apply andb_prop in H as [Hd Hs].
  destruct (Ascii.eqb d c) eqn:E.
  - apply Ascii.eqb_eq in E. subst d. congruence.
  - now apply IH.
Qed.

(** X8: whatever the password, the text that set_password stores is made
    of the sixty-four base64 characters and the padding sign only; it
    has no percent sign, no quote and no backslash, so formatify leaves
    it as it is. *)
Theorem stored_password_is_plain_text :
  forall (self : User.t) (password : string),
    User.Password (User.set_password self password)
    = Some (b64encode password)
    /\ string_forallb b64_text_char (b64encode password) = true
    /\ count_char "%" (b64encode password) = 0%nat
    /\ count_char quote (b64encode password) = 0%nat
    /\ count_char backslash (b64encode password) = 0%nat
    /\ formatify (b64encode password) = b64encode password.
Proof.
  intros self password.
  pose proof (b64encode_text password) as H.
  assert (Hpercent : count_char "%" (b64encode password) = 0%nat)
    by (apply (count_char_excluded b64_text_char); auto).
  repeat split; try assumption.
  - apply (count_char_excluded b64_text_char); auto.
  - apply (count_char_excluded b64_text_char); auto.
  - now apply formatify_no_percent.
Qed.

(** X9: the text stored for a password fits the Password column,
    VARCHAR(200), exactly when the password has at most 150 bytes. *)
Theorem stored_password_fits_column :
  forall password : string,
    (String.length (b64encode password) <= Password_width)%nat
    <-> (String.length password <= 150)%nat.
Proof.
  intro password. rewrite b64encode_length. unfold Password_width.
  pose proof (Nat.div_mod_eq (String.length password + 2) 3) as E.
  pose proof (Nat.mod_upper_bound (String.length password + 2) 3) as B.
  lia.
Qed.

(** X10: the stored text is the password itself only for the empty
    password; every other password is stored as a longer text. *)
Theorem stored_password_differs :
  forall password : string,
    (b64encode password = password <-> password = EmptyString)
    /\ (String.length password <= String.length (b64encode password))%nat.
Proof.
  intro password.
  pose proof (b64encode_length password) as L.
  pose proof (Nat.div_mod_eq (String.length password + 2) 3) as E.
  pose proof (Nat.mod_upper_bound (String.length password + 2) 3) as B.
  split; [|lia]. split.
  - intro H. rewrite H in L.
    destruct password as [|c rest]; [reflexivity|].
    cbn [String.length] in *. lia.
  - now intros ->.
Qed.

Lemma length_mod3_short (a : ascii) (s : string) :
  (String.length (String a s) mod 3 = 0)%nat ->
  exists b c rest, s = String b (String c rest).
Proof.
  destruct s as [|b [|c rest]]; cbn; try discriminate.
  intros _. now exists b, c, rest.
Qed.

(** X11: encoding works group by group: when the first part of a text
    has a number of bytes that is a multiple of three, the encoding of
    the whole is the encoding of the first part followed by the encoding
    of the rest. *)
Theorem b64encode_app :
  forall a b : string,
    (String.length a mod 3 = 0)%nat ->
    b64encode (a ++ b) = b64encode a ++ b64encode b.
Proof.
  induction a as [| x | x y | x y z rest IH] using string_ind3; intros b H.
  - reflexivity.
  - discriminate H.
  - discriminate H.
  - cbn [append]. rewrite !b64encode_group. cbn [append].
    rewrite IH; [reflexivity|].
    cbn [String.length] in H.
    replace (S (S (S (String.length rest))))
      with (String.length rest + 1 * 3)%nat in H by lia.
    now rewrite Nat.Div0.mod_add in H.
Qed.

Lemma b64encode_app_example :
  b64encode ("secret" ++ "99") = b64encode "secret" ++ b64encode "99".
Proof.
  apply (b64encode_app "secret" "99"). reflexivity.
Defined.

(** X12: set_password writes the Password column and nothing else, the
    last password set is the one stored, and a user constructed with one
    password and given another is the user constructed with the
    other. *)
Theorem set_password_overwrites :
  forall (self : User.t) (username p q name email : string) (k : Clock),
    User.set_password (User.set_password self p) q = User.set_password self q
    /\ User.set_password (fst (User.__init__ username p name email k)) q
       = fst (User.__init__ username q name email k)
    /\ User.UserId (User.set_password self q) = User.UserId self
    /\ User.Username (User.set_password self q) = User.Username self
    /\ User.Name (User.set_password self q) = User.Name self
    /\ User.Email (User.set_password self q) = User.Email self
    /\ User.UL (User.set_password self q) = User.UL self
    /\ User.dCreated (User.set_password self q) = User.dCreated self
    /\ User.dSignup (User.set_password self q) = User.dSignup self
    /\ User.bEnabled (User.set_password self q) = User.bEnabled self.
Proof.
  intros. repeat split.
Qed.

(** ** [__repr__] *)

(** X13: the __repr__ of each of the six classes raises exactly when
    one of the columns it formats with %d is None, whether a key or not,
    and otherwise returns the class name with those columns in decimal,
    each between quotes; a None in a column formatted with %s is written
    as the text None. *)
Theorem repr_needs_numbers :
  forall (a b c d : option Z) (t : option string),
    DBQuota_repr a b c
    = match a, b, c with
      | Some i, Some j, Some k =>
          Some ("<DBQuota('" ++ decimal i ++ "', '" ++ decimal j ++ "', '"
                  ++ decimal k ++ "')>")
      | _, _, _ => None
      end
    /\ DBOwner_repr a b c
       = match a, b, c with
         | Some i, Some j, Some k =>
             Some ("<DBOwner('" ++ decimal i ++ "', '" ++ decimal j ++ "', '"
                     ++ decimal k ++ "')>")
         | _, _, _ => None
         end
    /\ Database_repr a t b
       = match a, b with
         | Some i, Some j =>
             Some ("<Database('" ++ decimal i ++ "', '"
                     ++ match t with Some name => name | None => "None" end
                     ++ "', '" ++ decimal j ++ "')>")
         | _, _ => None
         end
    /\ UserQuota_repr a b c d
       = match a, b, c, d with
         | Some i, Some j, Some k, Some l =>
             Some ("<UserQuota('" ++ decimal i ++ "', '" ++ decimal j
                     ++ "', '" ++ decimal k ++ "', '" ++ decimal l ++ "')>")
         | _, _, _, _ => None
         end
    /\ UserStat_repr a b c
       = match a, b, c with
         | Some i, Some j, Some k =>
             Some ("<UserStat('" ++ decimal i ++ "', '" ++ decimal j
                     ++ "', '" ++ decimal k ++ "')>")
         | _, _, _ => None
         end
    /\ User_repr a t
       = match a with
         | Some i =>
             Some ("<User('" ++ decimal i ++ "','"
                     ++ match t with Some name => name | None => "None" end
                     ++ "')>")
         | None => None
         end.
Proof.
  intros a b c d t.
  unfold DBQuota_repr, DBOwner_repr, Database_repr, UserQuota_repr,
    UserStat_repr, User_repr.
  destruct a, b, c, d, t; repeat split; reflexivity.
Qed.

(** X14: a record that was just constructed has no key yet, so its
    __repr__ raises, for each of the six classes and whatever the
    constructor was given. *)
Theorem repr_of_new_record_raises :
  forall (username password name email dbname : string) (k : Clock),
    User__repr__ (fst (User.__init__ username password name email k)) = None
    /\ Database__repr__ (fst (Database.__init__ dbname k)) = None
    /\ DBQuota__repr__
         (fst (DBQuota.__init__ (fst (Database.__init__ dbname k)) k)) = None
    /\ DBOwner__repr__
         (DBOwner.__init__ (fst (User.__init__ username password name email k))
            (fst (Database.__init__ dbname k))) = None
    /\ UserQuota__repr__
         (fst (UserQuota.__init__
                 (fst (User.__init__ username password name email k)) k))
       = None
    /\ UserStat__repr__
         (UserStat.__init__
            (fst (User.__init__ username password name email k))) = None.
Proof.
  intros. repeat split.
Qed.

(** ** Statements that name a database *)

Lemma lex_scan_app (st : lexstate) (a b : string) :
  lex_scan st (a ++ b) = lex_scan (lex_scan st a) b.
Proof.
  revert st. induction a as [|c a IH]; intro st; [reflexivity|].
  cbn. apply IH.
Qed.

Lemma lex_scan_formatify (st : lexstate) (s : string) :
  lex_scan st (formatify s) = lex_scan st s.
Proof.
  revert st. induction s as [|c s IH]; intro st; [reflexivity|].
  rewrite formatify_cons.
  destruct (Ascii.eqb c "%") eqn:E.
  - apply Ascii.eqb_eq in E. subst c.
    destruct st; cbn; apply IH.
  - cbn [lex_scan]. apply IH.
Qed.

Lemma closes_at_end_lex (st : qstate) (s : string) :
  st <> Outside ->
  closes_at_end st s = true -> lex_scan (lex_of st) s = LClosing.
Proof.
  revert st. induction s as [|c s IH]; intros st Hst H.
  - destruct st; try discriminate H. reflexivity.
  - cbn [closes_at_end] in H. cbn [lex_scan].
    destruct st; [contradiction| | |].
    + cbn [qstep] in H. cbn [lex_of lex_step].
      destruct (Ascii.eqb c quote); [apply (IH Closing); congruence|].
      destruct (Ascii.eqb c backslash);
        [apply (IH Escaped) | apply (IH Inside)]; congruence.
    + cbn [qstep] in H. apply (IH Inside); congruence.
    + cbn [qstep] in H. cbn [lex_of lex_step].
      destruct (Ascii.eqb c quote); [|discriminate H].
      apply (IH Inside); congruence.
Qed.

Lemma single_literal_lex (s : string) :
  single_literal s = true -> lex_scan LOutside s = LClosing.
Proof.
  destruct s as [|c body]; [discriminate|].
  unfold single_literal. intro H. apply andb_prop in H as [Hq Hbody].
  cbn [lex_scan lex_step]. rewrite Hq.
  apply (closes_at_end_lex Inside); [discriminate | exact Hbody].
Qed.

Lemma identifier_body_lex (closing : bool) (s : string) :
  identifier_body closing s = true ->
  lex_scan (if closing then LIdentClosing else LIdent) s = LIdentClosing.
Proof.
  revert closing. induction s as [|c s IH]; intros closing H.
  - destruct closing; [reflexivity | discriminate H].
  - cbn [identifier_body] in H. cbn [lex_scan].
    destruct closing.
    + apply andb_prop in H as [Hc Hs]. cbn [lex_step].
      apply Ascii.eqb_eq in Hc. subst c.
      change (Ascii.eqb backquote quote) with false.
      rewrite Ascii.eqb_refl. cbv iota. exact (IH false Hs).
    + cbn [lex_step]. specialize (IH _ H).
      destruct (Ascii.eqb c backquote); exact IH.
Qed.

Lemma single_identifier_lex (s : string) :
  single_identifier s = true -> lex_scan LOutside s = LIdentClosing.
Proof.
  destruct s as [|c body]; [discriminate|].
  unfold single_identifier. intro H. apply andb_prop in H as [Hq Hbody].
  cbn [lex_scan lex_step]. apply Ascii.eqb_eq in Hq. subst c.
  change (Ascii.eqb backquote quote) with false.
  rewrite Ascii.eqb_refl. cbv iota.
  exact (identifier_body_lex false body Hbody).
Qed.

Lemma identifier_body_formatify (closing : bool) (s : string) :
  identifier_body closing (formatify s) = identifier_body closing s.
Proof.
  revert closing. induction s as [|c s IH]; intro closing; [reflexivity|].
  rewrite formatify_cons.
  destruct (Ascii.eqb c "%") eqn:E.
  - apply Ascii.eqb_eq in E. subst c.
    destruct closing; cbn; [reflexivity | apply IH].
  - cbn [identifier_body]. now rewrite !IH.
Qed.

Lemma single_identifier_formatify (s : string) :
  single_identifier s = true -> single_identifier (formatify s) = true.
Proof.
  destruct s as [|c body]; [discriminate|].
  unfold single_identifier. intro H. apply andb_prop in H as [Hq Hbody].
  apply Ascii.eqb_eq in Hq. subst c.
  rewrite formatify_cons. cbn. now rewrite identifier_body_formatify.
Qed.

(** X6: whatever the database, user and host, when the dialect renders
    the database name as one backquoted identifier and the user and the
    host each as one quoted literal, the GRANT and REVOKE hooks return
    their template with these three slots; after the escaping pass each
    slot is still one token, so that, read by a lexer that knows both
    kinds of quoting, the statement ends outside every token, whatever
    quotes or backquotes the names contain; and no percent sign of it is
    unpaired. *)
Theorem grant_revoke_tokens_closed :
  forall (compiler : Compiler) (db user host : string),
    single_identifier (quote_identifier compiler db) = true ->
    single_literal (render_literal_value compiler user) = true ->
    single_literal (render_literal_value compiler host) = true ->
    visit_grant (Grant.__init__ db user host) compiler
    = Some ("GRANT ALL ON " ++ formatify (quote_identifier compiler db)
              ++ ".* TO " ++ formatify (render_literal_value compiler user)
              ++ "@" ++ formatify (render_literal_value compiler host))
    /\ visit_revoke (Revoke.__init__ db user host) compiler
       = Some ("REVOKE ALL ON " ++ formatify (quote_identifier compiler db)
                 ++ ".* FROM " ++ formatify (render_literal_value compiler user)
                 ++ "@" ++ formatify (render_literal_value compiler host))
    /\ single_identifier (formatify (quote_identifier compiler db)) = true
    /\ single_literal (formatify (render_literal_value compiler user)) = true
    /\ single_literal (formatify (render_literal_value compiler host)) = true
    /\ tokens_closed
         ("GRANT ALL ON " ++ formatify (quote_identifier compiler db)
            ++ ".* TO " ++ formatify (render_literal_value compiler user)
            ++ "@" ++ formatify (render_literal_value compiler host)) = true
    /\ tokens_closed
         ("REVOKE ALL ON " ++ formatify (quote_identifier compiler db)
            ++ ".* FROM " ++ formatify (render_literal_value compiler user)
            ++ "@" ++ formatify (render_literal_value compiler host)) = true
    /\ percent_escaped
         ("GRANT ALL ON " ++ formatify (quote_identifier compiler db)
            ++ ".* TO " ++ formatify (render_literal_value compiler user)
            ++ "@" ++ formatify (render_literal_value compiler host)) = true
    /\ percent_escaped
         ("REVOKE ALL ON " ++ formatify (quote_identifier compiler db)
            ++ ".* FROM " ++ formatify (render_literal_value compiler user)
            ++ "@" ++ formatify (render_literal_value compiler host)) = true.
Proof.
  intros compiler db user host Hdb Huser Hhost.
  pose proof (single_identifier_formatify _ Hdb) as Fdb.
  pose proof (single_literal_formatify _ Huser) as Fuser.
  pose proof (single_literal_formatify _ Hhost) as Fhost.
  assert (Hgrant :
            formatify (statement_text (EGrant (Grant.__init__ db user host))
                         compiler)
            = "GRANT ALL ON " ++ formatify (quote_identifier compiler db)
                ++ ".* TO " ++ formatify (render_literal_value compiler user)
                ++ "@" ++ formatify (render_literal_value compiler host)).
  { cbn [statement_text Grant.__init__ Grant.db Grant.user Grant.host].
    rewrite !formatify_app. reflexivity. }
  assert (Hrevoke :
            formatify (statement_text (ERevoke (Revoke.__init__ db user host))
                         compiler)
            = "REVOKE ALL ON " ++ formatify (quote_identifier compiler db)
                ++ ".* FROM " ++ formatify (render_literal_value compiler user)
                ++ "@" ++ formatify (render_literal_value compiler host)).
  { cbn [statement_text Revoke.__init__ Revoke.db Revoke.user Revoke.host].
    rewrite !formatify_app. reflexivity. }
  repeat split; try assumption.
  - pose proof (compile_statement_text (EGrant (Grant.__init__ db user host))
                  compiler) as H.
    cbn [compile] in H. now rewrite H, Hgrant.
  - pose proof (compile_statement_text (ERevoke (Revoke.__init__ db user host))
                  compiler) as H.
    cbn [compile] in H. now rewrite H, Hrevoke.
  - unfold tokens_closed. rewrite !lex_scan_app.
    change (lex_scan LOutside "GRANT ALL ON ") with LOutside.
    rewrite (single_identifier_lex _ Fdb).
    change (lex_scan LIdentClosing ".* TO ") with LOutside.
    rewrite (single_literal_lex _ Fuser).
    change (lex_scan LClosing "@") with LOutside.
    now rewrite (single_literal_lex _ Fhost).
  - unfold tokens_closed. rewrite !lex_scan_app.
    change (lex_scan LOutside "REVOKE ALL ON ") with LOutside.
    rewrite (single_identifier_lex _ Fdb).
    change (lex_scan LIdentClosing ".* FROM ") with LOutside.
    rewrite (single_literal_lex _ Fuser).
    change (lex_scan LClosing "@") with LOutside.
    now rewrite (single_literal_lex _ Fhost).
  - rewrite <- Hgrant. apply percent_escaped_formatify.
  - rewrite <- Hrevoke. apply percent_escaped_formatify.
Qed.

Lemma grant_revoke_tokens_closed_mysql :
  visit_grant (Grant.__init__ "o'brien`50%" "o'brien" "%") mysql_compiler
  = Some "GRANT ALL ON `o'brien``50%%%%`.* TO 'o''brien'@'%%'"
  /\ tokens_closed "GRANT ALL ON `o'brien``50%%%%`.* TO 'o''brien'@'%%'"
     = true.
Proof.
  pose proof (grant_revoke_tokens_closed mysql_compiler
                "o'brien`50%" "o'brien" "%" eq_refl eq_refl eq_refl)
    as [H1 [_ [_ [_ [_ [H2 _]]]]]].
  split; [exact H1 | exact H2].
Defined.

(** X15: whatever the database name, when the dialect renders it as one
    backquoted identifier, the CREATE DATABASE and DROP DATABASE hooks
    return their template with that slot; after the escaping pass the
    slot is still one identifier, so that the statement ends outside
    every token, whatever quotes or backquotes the name contains, and no
    percent sign of it is unpaired.  DropDatabase constructed without
    the ignore argument renders as with ignore set to False, without IF
    EXISTS. *)
Theorem database_statements_tokens_closed :
  forall (compiler : Compiler) (name : string) (ignore : bool),
    single_identifier (quote_identifier compiler name) = true ->
    visit_create_database (CreateDatabase.__init__ name) compiler
    = Some ("CREATE DATABASE " ++ formatify (quote_identifier compiler name))
    /\ visit_drop_database (DropDatabase.__init__ name (Some ignore)) compiler
       = Some ("DROP DATABASE " ++ (if ignore then "IF EXISTS" else "")
                 ++ " " ++ formatify (quote_identifier compiler name))
    /\ visit_drop_database (DropDatabase.__init__ name None) compiler
       = Some ("DROP DATABASE  " ++ formatify (quote_identifier compiler name))
    /\ single_identifier (formatify (quote_identifier compiler name)) = true
    /\ tokens_closed
         ("CREATE DATABASE " ++ formatify (quote_identifier compiler name))
       = true
    /\ tokens_closed
         ("DROP DATABASE " ++ (if ignore then "IF EXISTS" else "")
            ++ " " ++ formatify (quote_identifier compiler name)) = true
    /\ percent_escaped
         ("CREATE DATABASE " ++ formatify (quote_identifier compiler name))
       = true
    /\ percent_escaped
         ("DROP DATABASE " ++ (if ignore then "IF EXISTS" else "")
            ++ " " ++ formatify (quote_identifier compiler name)) = true.
Proof.
  intros compiler name ignore Hname.
  pose proof (single_identifier_formatify _ Hname) as Fname.
  assert (Hcreate :
            formatify (statement_text
                         (ECreateDatabase (CreateDatabase.__init__ name))
                         compiler)
            = "CREATE DATABASE " ++ formatify (quote_identifier compiler name)).
  { cbn [statement_text CreateDatabase.__init__ CreateDatabase.name].
    rewrite !formatify_app. reflexivity. }
  assert (Hdrop : forall flag,
            formatify (statement_text
                         (EDropDatabase (DropDatabase.__init__ name flag))
                         compiler)
            = "DROP DATABASE "
                ++ (if match flag with Some b => b | None => false end
                    then "IF EXISTS" else "")
                ++ " " ++ formatify (quote_identifier compiler name)).
  { intro flag.
    cbn [statement_text DropDatabase.__init__ DropDatabase.name
           DropDatabase.ignore].
    rewrite !formatify_app.
    destruct (match flag with Some b => b | None => false end); reflexivity. }
  repeat split; try assumption.
  - pose proof (compile_statement_text
                  (ECreateDatabase (CreateDatabase.__init__ name)) compiler)
      as H.
    cbn [compile] in H. now rewrite H, Hcreate.
  - pose proof (compile_statement_text
                  (EDropDatabase (DropDatabase.__init__ name (Some ignore)))
                  compiler) as H.
    cbn [compile] in H. now rewrite H, (Hdrop (Some ignore)).
  - pose proof (compile_statement_text
                  (EDropDatabase (DropDatabase.__init__ name None)) compiler)
      as H.
    cbn [compile] in H. now rewrite H, (Hdrop None).
  - unfold tokens_closed. rewrite !lex_scan_app.
    change (lex_scan LOutside "CREATE DATABASE ") with LOutside.
    now rewrite (single_identifier_lex _ Fname).
  - unfold tokens_closed. rewrite !lex_scan_app.
    change (lex_scan LOutside "DROP DATABASE ") with LOutside.
    destruct ignore; cbn [lex_scan lex_step]; cbn;
      now rewrite (single_identifier_lex _ Fname).
  - rewrite <- Hcreate. apply percent_escaped_formatify.
  - rewrite <- (Hdrop (Some ignore)). apply percent_escaped_formatify.
Qed.

Lemma database_statements_tokens_closed_mysql :
  visit_create_database (CreateDatabase.__init__ "o'brien`50%") mysql_compiler
  = Some "CREATE DATABASE `o'brien``50%%%%`"
  /\ visit_drop_database (DropDatabase.__init__ "o'brien`50%" (Some true))
       mysql_compiler
     = Some "DROP DATABASE IF EXISTS `o'brien``50%%%%`"
  /\ tokens_closed "CREATE DATABASE `o'brien``50%%%%`" = true.
Proof.
  pose proof (database_statements_tokens_closed mysql_compiler
                "o'brien`50%" true eq_refl)
    as [H1 [H2 [_ [_ [H3 _]]]]].
  split; [exact H1 | split; [exact H2 | exact H3]].
Defined.
